(** * scrape.py: bounded-concurrency scraping of conference proceedings

    A shallow embedding of [scrape.py] and the properties of its fetch
    engine (retry wrapper, progress bar, request semaphore), of the
    per-conference orchestration ([Conference.scrape]) and of the final
    table processing in [main].

    Python values are modelled as follows:
    - [str] is a sequence of Unicode code points, [list N];
    - [int] is [Z] (years) or [nat] (counters that only grow from zero);
    - a coroutine is a finite tree of effects ([Coro]): what it does to the
      progress bar and to the semaphore, what it awaits from the network,
      and how it exits (return value or exception);
    - [dict] is a [gmap]; a [DataFrame] is the list of its rows. *)

From Stdlib Require Import ZArith List Lia Bool Ascii String DecimalString.
From Stdlib Require Import Sorted DecimalPos DecimalZ.
From stdpp Require Import base option list gmap.

Set Default Goal Selector "!".
Open Scope list_scope.

(** ** Strings *)

Abbreviation str := (list N).

(** A Python literal, written as a Rocq string. *)
Definition py (s : string) : str := map N_of_ascii (list_ascii_of_string s).

(** [str.isspace] of one character; also the class [\s] of [re] for [str]
    patterns, and what [str.strip()] removes. *)
Definition isspace (c : N) : bool :=
  ((9 <=? c) && (c <=? 13) || (28 <=? c) && (c <=? 32)
   || (c =? 133) || (c =? 160) || (c =? 5760)
   || (8192 <=? c) && (c <=? 8202)
   || (c =? 8232) || (c =? 8233) || (c =? 8239) || (c =? 8287)
   || (c =? 12288))%N.

Fixpoint lstrip (s : str) : str :=
  match s with
  | c :: s' => if isspace c then lstrip s' else s
  | [] => []
  end.

(** [s.strip()] *)
Definition strip (s : str) : str := rev (lstrip (rev (lstrip s))).

(** [s[a:]], [s[:-b]] and [s[a:-b]] for literal [a], [b] >= 0. *)
Definition slice_from (a : nat) (s : str) : str := drop a s.
Definition slice_to_neg (b : nat) (s : str) : str := take (length s - b) s.
Definition slice (a b : nat) (s : str) : str := drop a (take (length s - b) s).

(** ** Exceptions *)

Inductive exn : Type :=
| ClientConnectionError (detail : str)
    (* aiohttp.client_exceptions.ClientConnectionError and its subclasses *)
| NetworkError (detail : str)
    (* any other exception of session.get / response.text *)
| ParserError
| IndexError
| KeyError (key : str)
| AttributeError
| AssertionError
| ValueError
| OSError.

(** [except aiohttp.client_exceptions.ClientConnectionError] *)
Definition is_ClientConnectionError (e : exn) : bool :=
  match e with
  | ClientConnectionError _ => true
  | _ => false
  end.

(** ** Coroutines *)

(** Effects on the two process-wide objects, [REQUESTS_PBAR] and
    [OPEN_REQUESTS], and on standard output. *)
Inductive action : Type :=
| IncTotal            (* REQUESTS_PBAR.total += 1 *)
| Update              (* REQUESTS_PBAR.update() *)
| Acquire             (* OPEN_REQUESTS.__aenter__ *)
| Release             (* OPEN_REQUESTS.__aexit__ *)
| Stdout (msg : str).      (* print(msg) *)

(** What a coroutine awaits from the network, and what it gets back. *)
Inductive request : Type :=
| GET (url : str)     (* session.get(url) *)
| TEXT.               (* response.text() *)

Inductive reply : Type :=
| Fails (e : exn)
| Gives (body : str).

Inductive Coro (A : Type) : Type :=
| Ret (a : A)
| Raise (e : exn)
| Do (a : action) (k : Coro A)
| Await (r : request) (k : reply -> Coro A).

Arguments Ret {A} a.
Arguments Raise {A} e.
Arguments Do {A} a k.
Arguments Await {A} r k.

Fixpoint bind {A B} (c : Coro A) (f : A -> Coro B) : Coro B :=
  match c with
  | Ret a => f a
  | Raise e => Raise e
  | Do a k => Do a (bind k f)
  | Await r k => Await r (fun ans => bind (k ans) f)
  end.

(** [try: c  except Exception as e: handler e] *)
Fixpoint try_except {A} (c : Coro A) (handler : exn -> Coro A) : Coro A :=
  match c with
  | Ret a => Ret a
  | Raise e => handler e
  | Do a k => Do a (try_except k handler)
  | Await r k => Await r (fun ans => try_except (k ans) handler)
  end.

(** The body of [async with OPEN_REQUESTS:], after the permit was taken:
    [__aexit__] runs on the way out, whether the body returns or raises. *)
Fixpoint releasing {A} (c : Coro A) : Coro A :=
  match c with
  | Ret a => Do Release (Ret a)
  | Raise e => Do Release (Raise e)
  | Do a k => Do a (releasing k)
  | Await r k => Await r (fun ans => releasing (k ans))
  end.

Definition async_with_OPEN_REQUESTS {A} (body : Coro A) : Coro A :=
  Do Acquire (releasing body).

Declare Scope coro_scope.
Delimit Scope coro_scope with coro.
Notation "'let*' x ':=' c 'in' k" := (bind c (fun x => k))
  (at level 10, x name, c at level 100, k at level 200) : coro_scope.

(** [await session.get(url)] and [await response.text()] *)
Definition session_get (url : str) : Coro unit :=
  Await (GET url) (fun ans =>
    match ans with Fails e => Raise e | Gives _ => Ret tt end).

Definition response_text : Coro str :=
  Await TEXT (fun ans =>
    match ans with Fails e => Raise e | Gives body => Ret body end).

(** ** Running a coroutine

    The process-wide state a fetch touches: the counters [total] and [n] of
    the progress bar [REQUESTS_PBAR] and the internal counter of the
    semaphore [OPEN_REQUESTS] (the number of free permits). *)

Record Globals : Type := {
  pbar_total : nat;
  pbar_n : nat;
  sem_value : nat
}.

(** The effect of one action; [None] when the action cannot proceed now:
    [acquire] of a semaphore whose counter is zero waits. *)
Definition perform (a : action) (g : Globals) : option Globals :=
  match a with
  | IncTotal =>
      Some {| pbar_total := pbar_total g + 1; pbar_n := pbar_n g;
              sem_value := sem_value g |}
  | Update =>
      Some {| pbar_total := pbar_total g; pbar_n := pbar_n g + 1;
              sem_value := sem_value g |}
  | Acquire =>
      if (sem_value g =? 0)%nat then None
      else Some {| pbar_total := pbar_total g; pbar_n := pbar_n g;
                   sem_value := sem_value g - 1 |}
  | Release =>
      Some {| pbar_total := pbar_total g; pbar_n := pbar_n g;
              sem_value := sem_value g + 1 |}
  | Stdout _ => Some g
  end.

Inductive outcome (A : Type) : Type :=
| Returned (a : A)
| Raised (e : exn)
| Suspended.          (* still waiting: for a permit, or for the network *)

Arguments Returned {A} a.
Arguments Raised {A} e.
Arguments Suspended {A}.

Inductive event : Type :=
| EvDo (a : action)
| EvAwait (r : request) (ans : reply).

(** A coroutine run on its own against the replies of the network: how it
    exits, what it did, the replies it did not read, and the state it
    leaves. *)
Fixpoint run {A} (c : Coro A) (replies : list reply) (g : Globals)
  : outcome A * list event * list reply * Globals :=
  match c with
  | Ret a => (Returned a, [], replies, g)
  | Raise e => (Raised e, [], replies, g)
  | Do a k =>
      match perform a g with
      | None => (Suspended, [], replies, g)
      | Some g' =>
          let '(o, t, rest, g'') := run k replies g' in
          (o, EvDo a :: t, rest, g'')
      end
  | Await r k =>
      match replies with
      | [] => (Suspended, [], [], g)
      | ans :: replies' =>
          let '(o, t, rest, g') := run (k ans) replies' g in
          (o, EvAwait r ans :: t, rest, g')
      end
  end.

(** ** Parsed documents

    Of a parsed page the scraper reads only the results of five queries;
    a document is the record of these results. *)

Record Tag : Type := { text : str; attrs : gmap (list N) (list N) }.

Record Box : Type := {
  select_maincardBody : list Tag;   (* box.select(".maincardBody") *)
  findAll_button : list Tag;        (* box.findAll("button") *)
  find_h3 : option Tag;             (* box.find("h3") *)
  find_h4 : option Tag              (* box.find("h4") *)
}.

Record Doc : Type := {
  select_maincard_Poster : list Tag;      (* doc.select(".maincard.Poster") *)
  select_maincard_0_parent : option Box   (* doc.select(".maincard")[0].parent,
                                             None when nothing is selected *)
}.

Section Fetch.

(** [bs4.BeautifulSoup(text, features="lxml")]; [None] when the parser
    raises. *)
Variable BeautifulSoup : str -> option Doc.

Definition parse (body : str) : Coro Doc :=
  match BeautifulSoup body with
  | Some doc => Ret doc
  | None => Raise ParserError
  end.

(** [load_doc_from_url] before decoration (lines 40-46). *)
Definition load_doc_from_url_undecorated (url : str) : Coro Doc :=
  Do IncTotal
    (async_with_OPEN_REQUESTS
       (let* _ := session_get url in
        let* body := response_text in
        let* doc := parse body in
        Do Update (Ret doc))%coro).

(** The loop of [wrapper] (lines 26-32) over the values [range] still to be
    taken by [i]; a loop that runs out returns [None]. *)
Fixpoint wrapper_loop {A} (n_tries : nat) (call : Coro A) (range : list nat)
  : Coro (option A) :=
  match range with
  | [] => Ret None
  | i :: range' =>
      try_except (let* a := call in Ret (Some a))%coro
        (fun e =>
           if is_ClientConnectionError e then
             if (i =? n_tries - 1)%nat
             then Do (Stdout (py "Client error, try again: {e}")) (Raise e)
             else wrapper_loop n_tries call range'
           else Raise e)
  end.

Definition retry_on_server_disconnect {A B} (n_tries : nat) (f : B -> Coro A)
  : B -> Coro (option A) :=
  fun args => wrapper_loop n_tries (f args) (seq 0 n_tries).

(** [@retry_on_server_disconnect(3)  async def load_doc_from_url(...)] *)
Definition load_doc_from_url : str -> Coro (option Doc) :=
  retry_on_server_disconnect 3 load_doc_from_url_undecorated.

End Fetch.

(** ** Concurrent fetches

    Every request goes through one call of [load_doc_from_url]; the
    coroutines of these calls are interleaved by the event loop.  A task is
    the part of the coroutine still to run, with the events it performed so
    far.

    A step of the model is one effect of one task.  The event loop runs a
    coroutine from one await to the next, that is for several such steps
    in a row, so every state in which it can be observed is a state of the
    model.  A task that waits in [acquire] goes on once the counter of the
    semaphore is not zero; asyncio wakes the waiting tasks in the order of
    their arrival, the model lets any of them go first. *)

Record Task : Type := {
  coro : Coro (option Doc);
  history : list event
}.

Record System : Type := {
  globals : Globals;
  tasks : list Task
}.

(** The event loop either starts the fetch of a URL or resumes a task for
    one step; [ans] is what the network answers if the step is an await. *)
Inductive move : Type :=
| Spawn (url : str)
| Resume (tid : nat) (ans : reply).

Section Loop.

Variable BeautifulSoup : str -> option Doc.

Definition step (s : System) (m : move) : option System :=
  match m with
  | Spawn url =>
      Some {| globals := globals s;
              tasks := tasks s ++
                [{| coro := load_doc_from_url BeautifulSoup url;
                    history := [] |}] |}
  | Resume tid ans =>
      match tasks s !! tid with
      | None => None
      | Some t =>
          match coro t with
          | Ret _ | Raise _ => None
          | Do a k =>
              match perform a (globals s) with
              | None => None
              | Some g' =>
                  Some {| globals := g';
                          tasks := <[tid := {| coro := k;
                                               history := history t ++ [EvDo a] |}]>
                                     (tasks s) |}
              end
          | Await r k =>
              Some {| globals := globals s;
                      tasks := <[tid := {| coro := k ans;
                                           history := history t ++ [EvAwait r ans] |}]>
                                 (tasks s) |}
          end
      end
  end.

Fixpoint exec (s : System) (ms : list move) : option System :=
  match ms with
  | [] => Some s
  | m :: ms' =>
      match step s m with
      | None => None
      | Some s' => exec s' ms'
      end
  end.

End Loop.

(** [REQUESTS_PBAR = tqdm(total=0)] and [OPEN_REQUESTS = Semaphore(K)],
    before any fetch. *)
Definition boot (K : nat) : System :=
  {| globals := {| pbar_total := 0; pbar_n := 0; sem_value := K |};
     tasks := [] |}.

(** Measures of a history. *)
Definition count (p : event -> bool) (h : list event) : nat :=
  length (List.filter p h).

Definition is_do (a : action) (ev : event) : bool :=
  match ev, a with
  | EvDo IncTotal, IncTotal | EvDo Update, Update
  | EvDo Acquire, Acquire | EvDo Release, Release => true
  | _, _ => false
  end.

Definition is_failure (ev : event) : bool :=
  match ev with
  | EvAwait _ (Fails _) => true
  | _ => false
  end.

Definition is_get (ev : event) : bool :=
  match ev with
  | EvAwait (GET _) _ => true
  | _ => false
  end.

(** Permits taken and not yet given back. *)
Definition permits_held (h : list event) : nat :=
  count (is_do Acquire) h - count (is_do Release) h.

Definition exited (t : Task) : bool :=
  match coro t with
  | Ret _ | Raise _ => true
  | _ => false
  end.

Definition returned (t : Task) : bool :=
  match coro t with
  | Ret _ => true
  | _ => false
  end.

(** The number of fetches past [acquire] and before [release]. *)
Definition holders (s : System) : nat :=
  length (List.filter (fun t => (0 <? permits_held (history t))%nat) (tasks s)).

(** The sum of a measure over the histories of the tasks. *)
Definition sum_over (f : list event -> nat) (ts : list Task) : nat :=
  sum_list_with (fun t => f (history t)) ts.

(** The number of attempts that ended by a failure of the network. *)
Definition failures (s : System) : nat :=
  sum_over (count is_failure) (tasks s).

(** ** Asynchronous functions above the fetch

    The loaders, [Conference.scrape] and [main] are run to their result
    against a scripted network.  [await] of a fetch runs the fetch;
    [asyncio.gather] runs its tasks and returns their results in the order
    of the tasks. *)

Inductive call : Type :=
| load_paper_ids_call (url : str)
| load_paper_call (url : str)
| load_author_call (url : str).

Record Row : Type := {
  row_Conference : str;
  row_Year : Z;
  row_Title : str;
  row_Author : str;
  row_Affiliation : str
}.

Abbreviation DataFrame := (list Row).

Record World : Type := {
  shared : Globals;                      (* REQUESTS_PBAR, OPEN_REQUESTS *)
  calls : list call;                     (* the loader calls made so far *)
  written : option (str * DataFrame)     (* the file written by to_csv *)
}.

Definition Async (A : Type) : Type := World -> outcome A * World.

Definition ret {A} (a : A) : Async A := fun w => (Returned a, w).

Definition lift {A} (o : outcome A) : Async A := fun w => (o, w).

Definition and_then {A B} (c : Async A) (f : A -> Async B) : Async B :=
  fun w =>
    match c w with
    | (Returned a, w') => f a w'
    | (Raised e, w') => (Raised e, w')
    | (Suspended, w') => (Suspended, w')
    end.

Declare Scope async_scope.
Delimit Scope async_scope with async.
Notation "'let!' x ':=' c 'in' k" := (and_then c (fun x => k))
  (at level 10, x name, c at level 100, k at level 200) : async_scope.

(** Code without awaits: it returns or raises. *)
Definition and_then_pure {A B} (o : outcome A) (f : A -> outcome B)
  : outcome B :=
  match o with
  | Returned a => f a
  | Raised e => Raised e
  | Suspended => Suspended
  end.

Notation "'let?' x ':=' c 'in' k" := (and_then_pure c (fun x => k))
  (at level 10, x name, c at level 100, k at level 200) : async_scope.

Open Scope async_scope.

(** A list comprehension whose element expression may raise. *)
Fixpoint for_each {A B} (f : A -> outcome B) (l : list A) : outcome (list B) :=
  match l with
  | [] => Returned []
  | x :: l' =>
      let? y := f x in
      let? ys := for_each f l' in
      Returned (y :: ys)
  end.

(** [await asyncio.gather] of a list of tasks: every task is started, and
    when all return the results come in the order of the tasks.  When
    tasks raise, [asyncio.gather] raises the exception that comes first in
    time, while the other tasks are still under way; times are no part of
    this model, which lets every task run and reports the first exception
    in the order of the tasks.  Of a gather that raises, the statements
    below use only that it does not return and which calls were made
    before it. *)
Definition gathered {A} (o : outcome A) (os : outcome (list A))
  : outcome (list A) :=
  match o, os with
  | Raised e, _ => Raised e
  | _, Raised e => Raised e
  | Suspended, _ => Suspended
  | _, Suspended => Suspended
  | Returned a, Returned l => Returned (a :: l)
  end.

Fixpoint gather {A} (tasks : list (Async A)) : Async (list A) :=
  fun w =>
    match tasks with
    | [] => (Returned [], w)
    | t :: tasks' =>
        let '(o, w1) := t w in
        let '(os, w2) := gather tasks' w1 in
        (gathered o os, w2)
    end.

(** [d[key]] *)
Definition subscript (d : gmap (list N) (list N)) (key : str) : outcome str :=
  match d !! key with
  | Some v => Returned v
  | None => Raised (KeyError key)
  end.

(** [l[0]] *)
Definition first {A} (l : list A) : outcome A :=
  match l with
  | x :: _ => Returned x
  | [] => Raised IndexError
  end.

(** [x.attr] where [x] may be [None] *)
Definition not_None {A} (x : option A) : outcome A :=
  match x with
  | Some a => Returned a
  | None => Raised AttributeError
  end.

(** [dict(pairs)]: a later pair replaces an earlier one with the same key. *)
Definition dict (pairs : list (str * str)) : gmap (list N) (list N) :=
  foldl (fun d kv => <[fst kv := snd kv]> d) ∅ pairs.

(** [f"{year:d}"] *)
Definition format_d (year : Z) : str :=
  py (NilZero.string_of_int (Z.to_int year)).

Record Conference : Type := {
  name : str;
  host : str;
  first_year : Z
}.

Definition papers_url (self : Conference) (year : Z) : str :=
  py "https://" ++ host self ++ py "/Conferences/" ++ format_d year
    ++ py "/Schedule".

Definition paper_url (self : Conference) (year : Z) (id : str) : str :=
  py "https://" ++ host self ++ py "/Conferences/" ++ format_d year
    ++ py "/Schedule?showEvent=" ++ id.

Definition author_url (self : Conference) (year : Z) (id : str) : str :=
  py "https://" ++ host self ++ py "/Conferences/" ++ format_d year
    ++ py "/Schedule?showSpeaker=" ++ id.

Definition url_of (c : call) : str :=
  match c with
  | load_paper_ids_call url | load_paper_call url | load_author_call url => url
  end.

Section Scraper.

Variable BeautifulSoup : str -> option Doc.

(** The network: the replies given to the awaits of the [k]-th loader call
    of the run, made for [url]. *)
Variable net : nat -> str -> list reply.

(** [list(set(ids))]: the distinct elements of [ids], in the iteration
    order of the set. *)
Variable list_of_set : list str -> list str.

(** [doc = await load_doc_from_url(session, url)] in the loader call [c]. *)
Definition await_load_doc_from_url (c : call) : Async (option Doc) :=
  fun w =>
    let '(o, _, _, g) :=
      run (load_doc_from_url BeautifulSoup (url_of c))
          (net (length (calls w)) (url_of c)) (shared w) in
    (o, {| shared := g; calls := calls w ++ [c]; written := written w |}).

Definition load_paper_ids (url : str) : Async (list str) :=
  let! doc := await_load_doc_from_url (load_paper_ids_call url) in
  lift (let? doc := not_None doc in
        let cards := select_maincard_Poster doc in
        for_each (fun c => let? id := subscript (attrs c) (py "id") in
                           Returned (slice_from 9 id)) cards).

Definition load_paper (url : str) : Async (str * list (str * str)) :=
  let! doc := await_load_doc_from_url (load_paper_call url) in
  lift (let? doc := not_None doc in
        let? box := first (option_list (select_maincard_0_parent doc)) in
        let? body := first (select_maincardBody box) in
        let title := strip (text body) in
        let? authors :=
          for_each (fun b => let? onclick := subscript (attrs b) (py "onclick") in
                             Returned (strip (slice_to_neg 2 (strip (text b))),
                                       slice 13 3 onclick))
                   (findAll_button box) in
        Returned (title, authors)).

Definition load_author (url : str) : Async (str * str) :=
  let! doc := await_load_doc_from_url (load_author_call url) in
  lift (let? doc := not_None doc in
        let? box := first (option_list (select_maincard_0_parent doc)) in
        let? h3 := not_None (find_h3 box) in
        let name := strip (text h3) in
        let? h4 := not_None (find_h4 box) in
        let affiliation := strip (text h4) in
        Returned (name, affiliation)).

(** *** Conference.scrape *)

(** Lines 93-96: the listing, then one [load_paper] per paper id. *)
Definition scrape_papers (self : Conference) (year : Z)
  : Async (list (str * list (str * str))) :=
  let! paper_ids := load_paper_ids (papers_url self year) in
  let paper_links := map (paper_url self year) paper_ids in
  let paper_tasks := map load_paper paper_links in
  gather paper_tasks.

(** Lines 98-100. *)
Definition author_ids_of (paper_data : list (str * list (str * str)))
  : list str :=
  list_of_set (flat_map (fun p => map snd (snd p)) paper_data).

(** Lines 98-103: one [load_author] per element of [author_ids]. *)
Definition scrape_authors (self : Conference) (year : Z)
    (paper_data : list (str * list (str * str))) : Async (list (str * str)) :=
  let author_ids := author_ids_of paper_data in
  let author_links := map (author_url self year) author_ids in
  let author_tasks := map load_author author_links in
  gather author_tasks.

(** Lines 106-109. *)
Definition join (affiliations : gmap (list N) (list N))
    (paper_data : list (str * list (str * str)))
  : outcome (list (str * list (str * str))) :=
  for_each (fun p =>
              let title := fst p in
              let authors := snd p in
              let? joined :=
                for_each (fun a =>
                            let name := fst a in
                            let? affiliation := subscript affiliations name in
                            Returned (name, affiliation)) authors in
              Returned (title, joined))
           paper_data.

(** Lines 111-120. *)
Definition frame (self : Conference) (year : Z)
    (papers : list (str * list (str * str))) : DataFrame :=
  let unnormalized :=
    flat_map (fun p => map (fun a => (fst p, fst a, snd a)) (snd p)) papers in
  map (fun r => {| row_Conference := name self; row_Year := year;
                   row_Title := fst (fst r); row_Author := snd (fst r);
                   row_Affiliation := snd r |})
      unnormalized.

Definition scrape (self : Conference) (year : Z) : Async DataFrame :=
  let! paper_data := scrape_papers self year in
  let! author_data := scrape_authors self year paper_data in
  let affiliations := dict author_data in
  let! papers := lift (join affiliations paper_data) in
  ret (frame self year papers).

End Scraper.

Definition CONFERENCES : list Conference :=
  [ {| name := py "ICML"; host := py "icml.cc"; first_year := 2017 |};
    {| name := py "NeurIPS"; host := py "neurips.cc"; first_year := 2006 |};
    {| name := py "ICLR"; host := py "iclr.cc"; first_year := 2018 |} ].

(** *** The table *)

(** [pd.concat(frames)] *)
Definition pd_concat (frames : list DataFrame) : outcome DataFrame :=
  match frames with
  | [] => Raised ValueError          (* "No objects to concatenate" *)
  | _ => Returned (concat frames)
  end.

(** [df.sort_values(by=..., kind="mergesort")] sorts stably; the result of
    a stable sort is determined by its input ([stable_sort_unique] below),
    and is computed here by inserting each row in front of the sorted rows
    that follow it. *)
Fixpoint insert_row (leb : Row -> Row -> bool) (r : Row) (df : DataFrame)
  : DataFrame :=
  match df with
  | [] => [r]
  | r' :: df' => if leb r r' then r :: df else r' :: insert_row leb r df'
  end.

Definition sort_values (leb : Row -> Row -> bool) (df : DataFrame)
  : DataFrame :=
  foldr (insert_row leb) [] df.

(** [a <= b] on [str]: by code points, a proper prefix first. *)
Fixpoint str_leb (a b : str) : bool :=
  match a, b with
  | [], _ => true
  | _ :: _, [] => false
  | x :: a', y :: b' => (x <? y)%N || (x =? y)%N && str_leb a' b'
  end.

Definition by_Conference (r r' : Row) : bool :=
  str_leb (row_Conference r) (row_Conference r').

Definition by_Year (r r' : Row) : bool :=
  (row_Year r <=? row_Year r')%Z.

(** [re.sub(r"\s+", " ", s)], scanning [s]; [in_run] tells that the
    character before was a whitespace of a run already replaced. *)
Fixpoint sub_spaces (in_run : bool) (s : str) : str :=
  match s with
  | [] => []
  | c :: s' =>
      if isspace c
      then (if in_run then sub_spaces true s' else 32%N :: sub_spaces true s')
      else c :: sub_spaces false s'
  end.

(** [df["Author"].replace("\s+", " ", regex=True)] *)
Definition replace_spaces (df : DataFrame) : DataFrame :=
  map (fun r => {| row_Conference := row_Conference r; row_Year := row_Year r;
                   row_Title := row_Title r;
                   row_Author := sub_spaces false (row_Author r);
                   row_Affiliation := row_Affiliation r |})
      df.

(** Lines 181-187. *)
Definition tabulate (papers : list DataFrame) : outcome DataFrame :=
  let? df := pd_concat papers in
  let df := sort_values by_Conference df in
  let df := sort_values by_Year df in
  let df := replace_spaces df in
  Returned df.

(** The words of the specification: the maximal runs of characters of one
    kind (whitespace or not), and every run of whitespace replaced by one
    space. *)
Fixpoint runs (s : str) : list (bool * str) :=
  match s with
  | [] => []
  | c :: s' =>
      match runs s' with
      | (b, r) :: rs =>
          if Bool.eqb b (isspace c) then (b, c :: r) :: rs
          else (isspace c, [c]) :: (b, r) :: rs
      | [] => [(isspace c, [c])]
      end
  end.

Definition collapse (rs : list (bool * str)) : str :=
  concat (map (fun br : bool * str => if fst br then [32%N] else snd br) rs).

Definition single_spaced (s : str) : str := collapse (runs s).

(** Runs without the whitespace they may start with. *)
Definition drop_leading_space (rs : list (bool * str)) : list (bool * str) :=
  match rs with
  | (true, _) :: rs' => rs'
  | _ => rs
  end.

(** Neighbouring runs are of different kinds. *)
Fixpoint alternating (rs : list (bool * str)) : Prop :=
  match rs with
  | br :: ((br' :: _) as rs') => fst br <> fst br' /\ alternating rs'
  | _ => True
  end.

(** *** main *)

(** [args] of [parser.parse_args()] *)
Record Namespace : Type := {
  output : str;
  parallel : Z;
  years : str
}.

(** [range(a, b)] *)
Definition range (a b : Z) : list Z :=
  map (fun i => (a + Z.of_nat i)%Z) (seq 0 (Z.to_nat (b - a))).

(** [asyncio.Semaphore(value)] bound to [OPEN_REQUESTS] *)
Definition new_Semaphore (value : Z) : Async unit :=
  fun w =>
    if (value <? 0)%Z then (Raised ValueError, w)
    else (Returned tt,
          {| shared := {| pbar_total := pbar_total (shared w);
                          pbar_n := pbar_n (shared w);
                          sem_value := Z.to_nat value |};
             calls := calls w; written := written w |}).

(** [tqdm(total=0)] bound to [REQUESTS_PBAR] *)
Definition new_tqdm : Async unit :=
  fun w =>
    (Returned tt,
     {| shared := {| pbar_total := 0; pbar_n := 0;
                     sem_value := sem_value (shared w) |};
        calls := calls w; written := written w |}).

(** [df.to_csv(output, index=False)]: the table is written to the file
    when the path can be opened for writing ([writable]); [open] raises
    [OSError] otherwise (no such directory, no permission, a directory). *)
Definition to_csv (writable : str -> bool) (df : DataFrame) (output : str)
  : Async unit :=
  fun w =>
    if writable output
    then (Returned tt,
          {| shared := shared w; calls := calls w;
             written := Some (output, df) |})
    else (Raised OSError, w).

Section Main.

Variable BeautifulSoup : str -> option Doc.
Variable net : nat -> str -> list reply.
Variable list_of_set : list str -> list str.

(** [unicodedata.decimal(c)]: the value of a decimal digit, [None] for any
    other character.  The class [\d] of [re] and [int] read digits by it. *)
Variable decimal : N -> option Z.

(** The file system: the paths that can be opened for writing. *)
Variable writable : str -> bool.

Definition isdecimal (c : N) : bool :=
  match decimal c with
  | Some _ => true
  | None => false
  end.

(** The digits of [int(s)], single underscores allowed between digits. *)
Fixpoint int_digits (acc : Z) (after_digit : bool) (s : str) : option Z :=
  match s with
  | [] => if after_digit then Some acc else None
  | c :: s' =>
      if (c =? 95)%N then
        (if after_digit then int_digits acc false s' else None)
      else
        match decimal c with
        | Some d => int_digits (10 * acc + d)%Z true s'
        | None => None
        end
  end.

(** The whitespace that [int] skips at both ends of its argument: the
    whitespace of [str.isspace] without the four separators U+001C to
    U+001F, which [int] takes for characters that are no digits. *)
Definition int_isspace (c : N) : bool :=
  isspace c && negb ((28 <=? c) && (c <=? 31))%N.

Fixpoint int_lstrip (s : str) : str :=
  match s with
  | c :: s' => if int_isspace c then int_lstrip s' else s
  | [] => []
  end.

Definition int_strip (s : str) : str :=
  rev (int_lstrip (rev (int_lstrip s))).

(** [sys.get_int_max_str_digits()]: the number of digits above which
    [int] refuses to convert. *)
Definition int_max_str_digits : Z := 4300.

(** The number read from a text without whitespace around it: a sign and
    the digits. *)
Definition int_value (s : str) : option Z :=
  match s with
  | 43%N :: s' => int_digits 0 false s'
  | 45%N :: s' => Z.opp <$> int_digits 0 false s'
  | s' => int_digits 0 false s'
  end.

(** [int(s)]; [None] when it raises [ValueError]. *)
Definition int (s : str) : option Z :=
  let s := int_strip s in
  if (int_max_str_digits <? Z.of_nat (length (List.filter isdecimal s)))%Z
  then None
  else int_value s.

Fixpoint span_digits (s : str) : str * str :=
  match s with
  | c :: s' =>
      if isdecimal c
      then (let '(ds, rest) := span_digits s' in (c :: ds, rest))
      else ([], s)
  | [] => ([], [])
  end.

(** [re.match(r"^(\d+)-(\d+)$", years)]: the two groups of a match. *)
Definition match_year_range (years : str) : option (str * str) :=
  let '(g1, rest) := span_digits years in
  match g1, rest with
  | _ :: _, 45%N :: rest' =>
      let '(g2, tail) := span_digits rest' in
      match g2, tail with
      | _ :: _, [] => Some (g1, g2)
      | _ :: _, [10%N] => Some (g1, g2)   (* "$" also matches before a final newline *)
      | _, _ => None
      end
  | _, _ => None
  end.

(** Lines 157-162. *)
Definition year_bounds (years : str) : outcome (Z * Z) :=
  if existsb (N.eqb 45) years then
    match match_year_range years with
    | None => Raised AssertionError
    | Some (g1, g2) =>
        match int g1, int g2 with
        | Some start, Some end_ => Returned (start, end_)
        | _, _ => Raised ValueError
        end
    end
  else
    match int years with
    | Some year => Returned (year, year)
    | None => Raised ValueError
    end.

(** Lines 173-178. *)
Definition units (year_range : list Z) : list (Conference * Z) :=
  flat_map (fun conf =>
              map (fun year => (conf, year))
                  (List.filter (fun year => (year >=? first_year conf)%Z)
                               year_range))
           CONFERENCES.

Definition main (args : Namespace) : Async unit :=
  let output := output args in
  let parallel := parallel args in
  let years := years args in
  let! _ := new_Semaphore parallel in
  let! bounds := lift (year_bounds years) in
  let start := fst bounds in
  let end_ := snd bounds in
  let year_range := range start (end_ + 1) in
  let! _ := new_tqdm in
  let paper_tasks :=
    map (fun u => scrape BeautifulSoup net list_of_set (fst u) (snd u))
        (units year_range) in
  let! papers := gather paper_tasks in
  let! df := lift (tabulate papers) in
  to_csv writable df output.

End Main.

(** The state of the module before [main] runs. *)
Definition module_loaded : World :=
  {| shared := {| pbar_total := 0; pbar_n := 0; sem_value := 0 |};
     calls := []; written := None |}.

(** ** Vocabulary of the statements *)

Section Attempts.

Variable BeautifulSoup : str -> option Doc.

(** How one attempt (one call of the undecorated [load_doc_from_url]) ends
    on the replies [rs] it reads: the request fails, or the body cannot be
    read, or the body is read and parsed. *)
Definition attempt_exit (rs : list reply) : option (outcome Doc) :=
  match rs with
  | [Fails e] => Some (Raised e)
  | [Gives _; Fails e] => Some (Raised e)
  | [Gives _; Gives body] =>
      Some (match BeautifulSoup body with
            | Some doc => Returned doc
            | None => Raised ParserError
            end)
  | _ => None
  end.

(** The attempt ends by a connection-level error. *)
Definition connection_failure (rs : list reply) : bool :=
  match attempt_exit rs with
  | Some (Raised e) => is_ClientConnectionError e
  | _ => false
  end.

(** Everything an attempt on [rs] does, in order. *)
Definition attempt_trace (url : str) (rs : list reply) : list event :=
  [EvDo IncTotal; EvDo Acquire]
    ++ zip_with EvAwait [GET url; TEXT] rs
    ++ match attempt_exit rs with
       | Some (Returned _) => [EvDo Update]
       | _ => []
       end
    ++ [EvDo Release].

End Attempts.

(** What an exit adds to the counter [n] of the progress bar. *)
Definition completions {A} (o : outcome A) : nat :=
  match o with
  | Returned _ => 1
  | _ => 0
  end.

(** What the caller of the decorated function sees of the exit of the
    last attempt. *)
Definition surfaced {A} (o : outcome A) : outcome (option A) :=
  match o with
  | Returned a => Returned (Some a)
  | Raised e => Raised e
  | Suspended => Suspended
  end.

(** The progress bar after [scheduled] more requests were counted in
    [total] and [completed] more in [n]. *)
Definition advanced (g : Globals) (scheduled completed : nat) : Globals :=
  {| pbar_total := pbar_total g + scheduled;
     pbar_n := pbar_n g + completed;
     sem_value := sem_value g |}.

(** [along I Q c h]: wherever the coroutine [c] goes from the history
    [h], the history satisfies [I] at every point and [Q] at the exit. *)
Fixpoint along {A} (I : list event -> Prop)
    (Q : outcome A -> list event -> Prop) (c : Coro A) (h : list event)
  : Prop :=
  I h /\
  match c with
  | Ret a => Q (Returned a) h
  | Raise e => Q (Raised e) h
  | Do a k => along I Q k (h ++ [EvDo a])
  | Await r k => forall ans, along I Q (k ans) (h ++ [EvAwait r ans])
  end.

(** The accounts of a fetch: it holds no permit or one, and it completed
    or saw fail no more requests than it counted in [total]. *)
Definition orderly (h : list event) : Prop :=
  count (is_do Release) h <= count (is_do Acquire) h <=
    count (is_do Release) h + 1
  /\ count (is_do Update) h + count is_failure h <= count (is_do IncTotal) h.

(** The accounts of a fetch at its exit: every permit taken was given
    back, and a fetch that returns counted in [total] one request per
    completion and one per failure of the network. *)
Definition settled (o : outcome (option Doc)) (h : list event) : Prop :=
  count (is_do Acquire) h = count (is_do Release) h
  /\ match o with
     | Returned _ =>
         count (is_do IncTotal) h = count (is_do Update) h + count is_failure h
     | _ => True
     end.

(** The state of the event loop agrees with the histories of its tasks:
    each task keeps its accounts, the progress bar shows the sums of what
    the tasks counted, and the permits not in the semaphore are held by
    tasks. *)
Definition consistent (K : nat) (s : System) : Prop :=
  Forall (fun t => along orderly settled (coro t) (history t)) (tasks s)
  /\ pbar_total (globals s) = sum_over (count (is_do IncTotal)) (tasks s)
  /\ pbar_n (globals s) = sum_over (count (is_do Update)) (tasks s)
  /\ sem_value (globals s) + sum_over permits_held (tasks s) = K.


(** Rows that an order does not tell apart. *)
Definition same_key (leb : Row -> Row -> bool) (r r' : Row) : bool :=
  leb r r' && leb r' r.



(** The affiliation on the page of the last fetched author whose page
    shows the name [name]. *)
Definition last_affiliation (author_data : list (str * str)) (name : str)
  : option str :=
  snd <$> List.find (fun r => bool_decide (fst r = name)) (rev author_data).

(** The display names on the papers that no fetched author page shows, in
    the order of the papers and of their authors. *)
Definition missing_names (author_data : list (str * str))
    (paper_data : list (str * list (str * str))) : list str :=
  List.filter (fun name => match last_affiliation author_data name with
                           | Some _ => false
                           | None => true
                           end)
              (flat_map (fun p => map fst (snd p)) paper_data).

(** Each paper with its authors' display names, in the order of the page,
    each with the affiliation found under that name. *)
Definition joined_by_name (author_data : list (str * str))
    (paper_data : list (str * list (str * str)))
  : list (str * list (str * str)) :=
  map (fun p => (fst p,
                 map (fun a => (fst a,
                                default [] (last_affiliation author_data (fst a))))
                     (snd p)))
      paper_data.

(** The words of the specification: the fetched records are kept under the
    ids they were fetched for, and each author reference of a paper is
    looked up by its id. *)
Definition join_by_id (author_ids : list str) (author_data : list (str * str))
    (paper_data : list (str * list (str * str)))
  : outcome (list (str * list (str * str))) :=
  let records : gmap (list N) (str * str) :=
    list_to_map (zip author_ids author_data) in
  for_each (fun p =>
              let? joined :=
                for_each (fun a => match records !! snd a with
                                   | Some record => Returned record
                                   | None => Raised (KeyError (snd a))
                                   end)
                         (snd p) in
              Returned (fst p, joined))
           paper_data.

(** The calls of [load_author] for [url] among the calls [cs]. *)
Definition is_load_author_of (url : str) (c : call) : bool :=
  match c with
  | load_author_call u => bool_decide (u = url)
  | _ => false
  end.

Definition author_fetches (url : str) (cs : list call) : nat :=
  length (List.filter (is_load_author_of url) cs).

(** [gated c h]: wherever the coroutine [c] goes from the history [h], it
    awaits the network only while it holds a permit. *)
Fixpoint gated {A} (c : Coro A) (h : list event) : Prop :=
  match c with
  | Ret _ | Raise _ => True
  | Do a k => gated k (h ++ [EvDo a])
  | Await r k =>
      0 < permits_held h /\ forall ans, gated (k ans) (h ++ [EvAwait r ans])
  end.

(** The tasks whose next step is an answer of the network: the requests
    in flight. *)
Definition awaiting (t : Task) : bool :=
  match coro t with
  | Await _ _ => true
  | _ => false
  end.

Definition in_flight (s : System) : nat :=
  length (List.filter awaiting (tasks s)).

(** A fetch counted at most three requests and sent at most three. *)
Definition within_budget (h : list event) : Prop :=
  count (is_do IncTotal) h <= 3 /\ count is_get h <= count (is_do IncTotal) h.

(** The number written by decimal digits, most significant first, after
    the digits already read gave [acc]. *)
Fixpoint uint_value (acc : Z) (d : Decimal.uint) : Z :=
  match d with
  | Decimal.Nil => acc
  | Decimal.D0 d' => uint_value (10 * acc + 0) d'
  | Decimal.D1 d' => uint_value (10 * acc + 1) d'
  | Decimal.D2 d' => uint_value (10 * acc + 2) d'
  | Decimal.D3 d' => uint_value (10 * acc + 3) d'
  | Decimal.D4 d' => uint_value (10 * acc + 4) d'
  | Decimal.D5 d' => uint_value (10 * acc + 5) d'
  | Decimal.D6 d' => uint_value (10 * acc + 6) d'
  | Decimal.D7 d' => uint_value (10 * acc + 7) d'
  | Decimal.D8 d' => uint_value (10 * acc + 8) d'
  | Decimal.D9 d' => uint_value (10 * acc + 9) d'
  end.

(** A character between "0" and "9". *)
Definition ascii_digit (c : N) : bool := ((48 <=? c) && (c <=? 57))%N.

(** A text in which every whitespace is one space between two other
    characters or at an end of the text. *)
Fixpoint single_spaces (s : str) : Prop :=
  match s with
  | [] => True
  | c :: s' =>
      (isspace c = true ->
       c = 32%N /\ match s' with
                   | c' :: _ => isspace c' = false
                   | [] => True
                   end)
      /\ single_spaces s'
  end.

(** A text that neither starts nor ends with whitespace. *)
Definition no_edge_space (s : str) : Prop :=
  match s with
  | c :: _ => isspace c = false
  | [] => True
  end
  /\ match rev s with
     | c :: _ => isspace c = false
     | [] => True
     end.

(** The answer to the last await of a history. *)
Definition last_answer (h : list event) : option reply :=
  last (omap (fun ev => match ev with
                        | EvAwait _ ans => Some ans
                        | EvDo _ => None
                        end) h).

(** What a fetch may return: a document, and the one parsed from the body
    that the network gave last. *)
Definition parsed_last (BeautifulSoup : str -> option Doc)
    (o : outcome (option Doc)) (h : list event) : Prop :=
  match o with
  | Returned None => False
  | Returned (Some doc) =>
      exists body,
        last_answer h = Some (Gives body) /\ BeautifulSoup body = Some doc
  | _ => True
  end.

(** The markup of the schedule pages: the card of a paper carries the
    paper's id after "maincard_"; the button of an author is labelled with
    the name and two more characters, and its handler carries the
    author's id. *)
Definition card_of (c : Tag) (id : str) : Prop :=
  attrs c !! py "id" = Some (py "maincard_" ++ id).

Definition button_of (b : Tag) (a : str * str) : Prop :=
  text b = fst a ++ [32%N; 187%N]
  /\ attrs b !! py "onclick" = Some (py "showSpeaker('" ++ snd a ++ py "');").

(** The state in which [main] starts the units: the semaphore has the
    permits of [--parallel] and the progress bar is new. *)
Definition set_up (args : Namespace) (w : World) : World :=
  {| shared := {| pbar_total := 0; pbar_n := 0;
                  sem_value := Z.to_nat (parallel args) |};
     calls := calls w; written := written w |}.



(** ** Concrete pages and networks, for the examples *)

Definition ascii_decimal (c : N) : option Z :=
  if ((48 <=? c) && (c <=? 57))%N then Some (Z.of_N c - 48)%Z else None.

Definition tag (t : str) (kvs : list (str * str)) : Tag :=
  {| text := t; attrs := dict kvs |}.

Definition ICLR : Conference :=
  {| name := py "ICLR"; host := py "iclr.cc"; first_year := 2018 |}.

(** A listing of the papers 77 and 78. *)
Definition listing_page : Doc :=
  {| select_maincard_Poster := [tag [] [(py "id", py "maincard_77")];
                                tag [] [(py "id", py "maincard_78")]];
     select_maincard_0_parent := None |}.

Definition button (label : string) (id : string) : Tag :=
  tag (py label ++ [32%N; 187%N])
      [(py "onclick", py "showSpeaker('" ++ py id ++ py "');")].

(** Paper 77 credits two authors, both displayed as "J Smith", with the
    ids 1 and 2; paper 78 credits the author with the id 1. *)
Definition paper_page (title : string) (buttons : list Tag) : Doc :=
  {| select_maincard_Poster := [];
     select_maincard_0_parent :=
       Some {| select_maincardBody := [tag (py title) []];
               findAll_button := buttons;
               find_h3 := None; find_h4 := None |} |}.

Definition author_page (h3 h4 : string) : Doc :=
  {| select_maincard_Poster := [];
     select_maincard_0_parent :=
       Some {| select_maincardBody := []; findAll_button := [];
               find_h3 := Some (tag (py h3) []);
               find_h4 := Some (tag (py h4) []) |} |}.

Definition soup (body : str) : option Doc :=
  if decide (body = py "L") then Some listing_page
  else if decide (body = py "P77") then
    Some (paper_page " A Paper " [button "J Smith" "1"; button "J Smith" "2"])
  else if decide (body = py "P78") then
    Some (paper_page "Another Paper" [button "J Smith" "1"])
  else if decide (body = py "A1") then Some (author_page "J Smith" "MIT")
  else if decide (body = py "A2") then Some (author_page "J Smith" "CMU")
  else None.

(** A network that serves ICLR 2018 at the first attempt. *)
Definition web (k : nat) (url : str) : list reply :=
  [Gives [];
   Gives (if decide (url = papers_url ICLR 2018) then py "L"
          else if decide (url = paper_url ICLR 2018 (py "77")) then py "P77"
          else if decide (url = paper_url ICLR 2018 (py "78")) then py "P78"
          else if decide (url = author_url ICLR 2018 (py "1")) then py "A1"
          else if decide (url = author_url ICLR 2018 (py "2")) then py "A2"
          else py "?")].

(** What the loaders make of these pages. *)
Definition two_papers : list (str * list (str * str)) :=
  [(py "A Paper", [(py "J Smith", py "1"); (py "J Smith", py "2")]);
   (py "Another Paper", [(py "J Smith", py "1")])].

Definition smith_1 : str * str := (py "J Smith", py "MIT").
Definition smith_2 : str * str := (py "J Smith", py "CMU").

(** Two iteration orders of a set of ids, one the reverse of the other. *)
Definition some_order (ids : list str) : list str := remove_dups ids.
Definition reverse_order (ids : list str) : list str :=
  reverse (remove_dups ids).

Definition reset : exn := ClientConnectionError (py "Connection reset by peer").

Definition gate_open : Globals :=
  {| pbar_total := 0; pbar_n := 0; sem_value := 500 |}.

Definition ready : World :=
  {| shared := gate_open; calls := []; written := None |}.

(** Moves of the event loop: a task takes its next step; a fetch whose
    first request is reset and whose second attempt succeeds; two fetches
    under a cap of one. *)
Definition go (tid : nat) : move := Resume tid (Gives []).

Definition retried_run : list move :=
  [Spawn (py "u"); go 0; go 0; Resume 0 (Fails reset); go 0;
   go 0; go 0; Resume 0 (Gives []); Resume 0 (Gives (py "L")); go 0; go 0].

Definition crowded_run : list move :=
  [Spawn (py "u"); Spawn (py "v"); go 0; go 0; go 1].

Definition reversed_args : Namespace :=
  {| output := py "papers.csv"; parallel := 500; years := py "2010-2008" |}.

(** A file system on which every path can be written. *)
Definition any_path (path : str) : bool := true.


(** Pages on which the two authors have names of their own. *)
Definition jones_2 : str * str := (py "B Jones", py "CMU").

Definition named_papers : list (str * list (str * str)) :=
  [(py "A Paper", [(py "J Smith", py "1"); (py "B Jones", py "2")]);
   (py "Another Paper", [(py "J Smith", py "1")])].

(** A network on which ICLR 2018 lists no paper. *)
Definition empty_listing_page : Doc :=
  {| select_maincard_Poster := []; select_maincard_0_parent := None |}.

Definition empty_soup (body : str) : option Doc := Some empty_listing_page.

Definition any_web (k : nat) (url : str) : list reply := [Gives []; Gives []].

(** A network that is down. *)
Definition dead_web (k : nat) (url : str) : list reply :=
  [Fails reset; Fails reset; Fails reset].

(** A site on which every conference lists, in every year, the papers 77
    and 78; paper 77 credits "Jane   Doe" (id 1, MIT) and "B Jones" (id 2,
    CMU), paper 78 credits "Jane   Doe". *)
Definition schedule_soup (body : str) : option Doc :=
  if decide (body = py "L") then Some listing_page
  else if decide (body = py "P77") then
    Some (paper_page "A Paper" [button "Jane   Doe" "1"; button "B Jones" "2"])
  else if decide (body = py "P78") then
    Some (paper_page "Another Paper" [button "Jane   Doe" "1"])
  else if decide (body = py "A1") then Some (author_page "Jane   Doe" "MIT")
  else if decide (body = py "A2") then Some (author_page "B Jones" "CMU")
  else None.

Definition schedule_web (k : nat) (url : str) : list reply :=
  let asked (make : Conference -> Z -> str) :=
    existsb (fun u => bool_decide (url = make (fst u) (snd u)))
            (units [2017; 2018]%Z) in
  [Gives [];
   Gives (if asked papers_url then py "L"
          else if asked (fun c y => paper_url c y (py "77")) then py "P77"
          else if asked (fun c y => paper_url c y (py "78")) then py "P78"
          else if asked (fun c y => author_url c y (py "1")) then py "A1"
          else if asked (fun c y => author_url c y (py "2")) then py "A2"
          else py "?")].

Definition two_years : Namespace :=
  {| output := py "papers.csv"; parallel := 500; years := py "2017-2018" |}.

(** * Properties *)

(** ** A coroutine run on its own *)

Lemma run_bind {A B} (c : Coro A) (f : A -> Coro B) rs g :
  run (bind c f) rs g =
  match run c rs g with
  | (Returned a, t, rest, g') =>
      let '(o, t', rest', g'') := run (f a) rest g' in (o, t ++ t', rest', g'')
  | (Raised e, t, rest, g') => (Raised e, t, rest, g')
  | (Suspended, t, rest, g') => (Suspended, t, rest, g')
  end.
Proof.
  revert rs g. induction c as [a|e|a k IH|r k IH]; intros rs g; simpl.
  - destruct (run (f a) rs g) as [[[o t] rest] g']. reflexivity.
  - reflexivity.
  - destruct (perform a g) as [g'|]; [|reflexivity].
    rewrite IH. destruct (run k rs g') as [[[[x|e|] t] rest] g'']; try reflexivity.
    destruct (run (f x) rest g'') as [[[o t'] rest'] g3]. reflexivity.
  - destruct rs as [|ans rs]; [reflexivity|].
    rewrite IH. destruct (run (k ans) rs g) as [[[[x|e|] t] rest] g'']; try reflexivity.
    destruct (run (f x) rest g'') as [[[o t'] rest'] g3]. reflexivity.
Qed.

Lemma run_try_except {A} (c : Coro A) (handler : exn -> Coro A) rs g :
  run (try_except c handler) rs g =
  match run c rs g with
  | (Raised e, t, rest, g') =>
      let '(o, t', rest', g'') := run (handler e) rest g' in
      (o, t ++ t', rest', g'')
  | r => r
  end.
Proof.
  revert rs g. induction c as [a|e|a k IH|r k IH]; intros rs g; simpl.
  - reflexivity.
  - destruct (run (handler e) rs g) as [[[o t] rest] g']. reflexivity.
  - destruct (perform a g) as [g'|]; [|reflexivity].
    rewrite IH. destruct (run k rs g') as [[[[x|e|] t] rest] g'']; try reflexivity.
    destruct (run (handler e) rest g'') as [[[o t'] rest'] g3]. reflexivity.
  - destruct rs as [|ans rs]; [reflexivity|].
    rewrite IH. destruct (run (k ans) rs g) as [[[[x|e|] t] rest] g'']; try reflexivity.
    destruct (run (handler e) rest g'') as [[[o t'] rest'] g3]. reflexivity.
Qed.

Section FetchProperties.

Variable BeautifulSoup : str -> option Doc.

Lemma attempt_runs url rs o rest g :
  attempt_exit BeautifulSoup rs = Some o ->
  sem_value g <> 0%nat ->
  run (load_doc_from_url_undecorated BeautifulSoup url) (rs ++ rest) g =
  (o, attempt_trace BeautifulSoup url rs, rest, advanced g 1 (completions o)).
Proof.
  intros Hexit Hfree.
  assert (Hback : forall t n, {| pbar_total := t; pbar_n := n;
                                  sem_value := sem_value g - 1 + 1 |} =
                               {| pbar_total := t; pbar_n := n;
                                  sem_value := sem_value g |}).
  { intros t n. f_equal. lia. }
  unfold attempt_trace. rewrite Hexit.
  destruct rs as [|[e|x] [|[e'|body] [|? ?]]]; simpl in Hexit;
    try discriminate; injection Hexit as <-;
    unfold load_doc_from_url_undecorated, async_with_OPEN_REQUESTS, parse;
    simpl; destruct (Nat.eqb_spec (sem_value g) 0) as [|_]; try contradiction;
    simpl.
  - rewrite Hback. unfold advanced. simpl. rewrite Nat.add_0_r. reflexivity.
  - rewrite Hback. unfold advanced. simpl. rewrite Nat.add_0_r. reflexivity.
  - destruct (BeautifulSoup body) as [doc|]; simpl; rewrite Hback;
      unfold advanced; simpl; rewrite ?Nat.add_0_r; reflexivity.
Qed.

(** One iteration of the loop of [wrapper]. *)
Lemma wrapper_loop_iteration n url i range rs o rest g :
  attempt_exit BeautifulSoup rs = Some o ->
  sem_value g <> 0%nat ->
  run (wrapper_loop n (load_doc_from_url_undecorated BeautifulSoup url)
         (i :: range)) (rs ++ rest) g =
  match o with
  | Returned doc =>
      (Returned (Some doc), attempt_trace BeautifulSoup url rs, rest,
       advanced g 1 1)
  | Raised e =>
      if is_ClientConnectionError e then
        if (i =? n - 1)%nat then
          (Raised e,
           attempt_trace BeautifulSoup url rs
             ++ [EvDo (Stdout (py "Client error, try again: {e}"))],
           rest, advanced g 1 0)
        else
          let '(o', t, rest', g') :=
            run (wrapper_loop n (load_doc_from_url_undecorated BeautifulSoup url)
                   range) rest (advanced g 1 0) in
          (o', attempt_trace BeautifulSoup url rs ++ t, rest', g')
      else (Raised e, attempt_trace BeautifulSoup url rs, rest, advanced g 1 0)
  | Suspended =>
      (Suspended, attempt_trace BeautifulSoup url rs, rest, advanced g 1 0)
  end.
Proof.
  intros Hexit Hfree. cbn [wrapper_loop].
  rewrite run_try_except, run_bind, (attempt_runs url rs o rest g Hexit Hfree).
  destruct o as [doc|e|]; cbn.
  - rewrite app_nil_r. reflexivity.
  - destruct (is_ClientConnectionError e); cbn.
    + destruct (i =? n - 1)%nat; cbn; [reflexivity|].
      destruct (run _ rest _) as [[[o' t] rest'] g']. reflexivity.
    + rewrite app_nil_r. reflexivity.
  - reflexivity.
Qed.

Lemma advanced_advanced g a b c d :
  advanced (advanced g a b) c d = advanced g (a + c) (b + d).
Proof. unfold advanced. cbn. f_equal; lia. Qed.

(** Attempts that end by a connection error, none of them the last one
    allowed, are followed by the rest of the loop. *)
Lemma wrapper_loop_retries n url fs rest :
  forall i g,
    forallb (connection_failure BeautifulSoup) fs = true ->
    sem_value g <> 0%nat ->
    i + length fs < n ->
    run (wrapper_loop n (load_doc_from_url_undecorated BeautifulSoup url)
           (seq i (n - i))) (concat fs ++ rest) g =
    let '(o, t, rest', g') :=
      run (wrapper_loop n (load_doc_from_url_undecorated BeautifulSoup url)
             (seq (i + length fs) (n - (i + length fs)))) rest
          (advanced g (length fs) 0) in
    (o, flat_map (attempt_trace BeautifulSoup url) fs ++ t, rest', g').
Proof.
  induction fs as [|rs fs IH]; intros i g Hfs Hfree Hlt; cbn [length] in *.
  - cbn [concat flat_map app]. rewrite Nat.add_0_r.
    replace (advanced g 0 0) with g by (destruct g; unfold advanced; cbn; f_equal; lia).
    destruct (run _ rest g) as [[[o t] rest'] g']. reflexivity.
  - cbn [forallb] in Hfs. apply andb_prop in Hfs as [Hrs Hfs].
    unfold connection_failure in Hrs.
    destruct (attempt_exit BeautifulSoup rs) as [[doc|e|]|] eqn:Hexit;
      try discriminate.
    replace (n - i) with (S (n - S i)) by lia. cbn [seq concat].
    rewrite <- app_assoc.
    rewrite (wrapper_loop_iteration n url i _ rs _ _ g Hexit Hfree), Hrs.
    destruct (Nat.eqb_spec i (n - 1)) as [Heq|_]; [lia|].
    rewrite (IH (S i) (advanced g 1 0)); [|assumption|assumption|lia].
    rewrite advanced_advanced.
    replace (S i + length fs) with (i + S (length fs)) by lia.
    cbn [Nat.add flat_map].
    destruct (run _ rest _) as [[[o t] rest'] g'].
    rewrite <- app_assoc. reflexivity.
Qed.

(** The exit of the first attempt that does not end by a retried error. *)
Lemma load_doc_from_url_exit url fs s o rest g :
  forallb (connection_failure BeautifulSoup) fs = true ->
  length fs < 3 ->
  attempt_exit BeautifulSoup s = Some o ->
  connection_failure BeautifulSoup s = false ->
  sem_value g <> 0%nat ->
  run (load_doc_from_url BeautifulSoup url) (concat fs ++ s ++ rest) g =
  (surfaced o,
   flat_map (attempt_trace BeautifulSoup url) fs
     ++ attempt_trace BeautifulSoup url s,
   rest, advanced g (length fs + 1) (completions o)).
Proof.
  intros Hfs Hlen Hexit Hother Hfree.
  unfold load_doc_from_url, retry_on_server_disconnect.
  change (seq 0 3) with (seq 0 (3 - 0)).
  rewrite (wrapper_loop_retries 3 url fs (s ++ rest) 0 g Hfs Hfree);
    [|cbn; lia].
  cbn [Nat.add].
  replace (3 - length fs) with (S (3 - S (length fs))) by lia. cbn [seq].
  rewrite (wrapper_loop_iteration 3 url _ _ s o rest _ Hexit);
    [|assumption].
  unfold connection_failure in Hother. rewrite Hexit in Hother.
  destruct o as [doc|e|]; cbn [surfaced completions].
  - rewrite advanced_advanced. reflexivity.
  - destruct (is_ClientConnectionError e); [discriminate|].
    rewrite advanced_advanced. reflexivity.
  - rewrite advanced_advanced. reflexivity.
Qed.

(** The exit of a third attempt that ends by a connection error. *)
Lemma load_doc_from_url_exhausted url fs s e rest g :
  forallb (connection_failure BeautifulSoup) fs = true ->
  length fs = 2 ->
  attempt_exit BeautifulSoup s = Some (Raised e) ->
  is_ClientConnectionError e = true ->
  sem_value g <> 0%nat ->
  run (load_doc_from_url BeautifulSoup url) (concat fs ++ s ++ rest) g =
  (Raised e,
   flat_map (attempt_trace BeautifulSoup url) fs
     ++ attempt_trace BeautifulSoup url s
     ++ [EvDo (Stdout (py "Client error, try again: {e}"))],
   rest, advanced g 3 0).
Proof.
  intros Hfs Hlen Hexit Hconn Hfree.
  unfold load_doc_from_url, retry_on_server_disconnect.
  change (seq 0 3) with (seq 0 (3 - 0)).
  rewrite (wrapper_loop_retries 3 url fs (s ++ rest) 0 g Hfs Hfree);
    [|cbn; lia].
  cbn [Nat.add]. rewrite Hlen. cbn [Nat.sub seq].
  rewrite (wrapper_loop_iteration 3 url _ _ s _ rest _ Hexit);
    [|assumption].
  rewrite Hconn. cbn [Nat.eqb Nat.sub]. rewrite advanced_advanced.
  reflexivity.
Qed.

Lemma count_app p h h' : count p (h ++ h') = count p h + count p h'.
Proof. unfold count. rewrite List.filter_app, length_app. reflexivity. Qed.

Lemma count_get_attempt url rs o :
  attempt_exit BeautifulSoup rs = Some o ->
  count is_get (attempt_trace BeautifulSoup url rs) = 1.
Proof.
  intros Hexit. unfold attempt_trace. rewrite Hexit.
  destruct rs as [|[e|x] [|[e'|body] [|? ?]]]; simpl in Hexit;
    try discriminate; injection Hexit as <-; try reflexivity.
  destruct (BeautifulSoup body); reflexivity.
Qed.

Lemma count_get_failed_attempts url fs :
  forallb (connection_failure BeautifulSoup) fs = true ->
  count is_get (flat_map (attempt_trace BeautifulSoup url) fs) = length fs.
Proof.
  induction fs as [|rs fs IH]; intros Hfs; [reflexivity|].
  cbn [forallb] in Hfs. apply andb_prop in Hfs as [Hrs Hfs].
  cbn [flat_map length]. rewrite count_app, (IH Hfs).
  unfold connection_failure in Hrs.
  destruct (attempt_exit BeautifulSoup rs) as [o|] eqn:Hexit; [|discriminate].
  rewrite (count_get_attempt url rs o Hexit). reflexivity.
Qed.

(** C3. A fetch whose attempts end by connection errors is attempted again,
    three times in all and with nothing done between the end of one attempt
    and the start of the next.  If fewer than three attempts failed and the
    next one succeeds, the fetch returns the parsed document and no
    exception; the progress bar counts one completion.  If the third
    attempt fails as well, its exception is raised to the caller, no fourth
    attempt is made and the counter [n] of the progress bar is as it was. *)
Theorem retry_three_attempts url fs rest g :
  forallb (connection_failure BeautifulSoup) fs = true ->
  sem_value g <> 0%nat ->
  (forall s doc,
      length fs < 3 ->
      attempt_exit BeautifulSoup s = Some (Returned doc) ->
      run (load_doc_from_url BeautifulSoup url) (concat fs ++ s ++ rest) g =
      (Returned (Some doc),
       flat_map (attempt_trace BeautifulSoup url) fs
         ++ attempt_trace BeautifulSoup url s,
       rest, advanced g (length fs + 1) 1))
  /\
  (forall s e,
      length fs = 2 ->
      attempt_exit BeautifulSoup s = Some (Raised e) ->
      is_ClientConnectionError e = true ->
      run (load_doc_from_url BeautifulSoup url) (concat fs ++ s ++ rest) g =
      (Raised e,
       flat_map (attempt_trace BeautifulSoup url) fs
         ++ attempt_trace BeautifulSoup url s
         ++ [EvDo (Stdout (py "Client error, try again: {e}"))],
       rest, advanced g 3 0)).
Proof.
  intros Hfs Hfree. split.
  - intros s doc Hlen Hexit.
    apply (load_doc_from_url_exit url fs s (Returned doc) rest g);
      try assumption.
    unfold connection_failure. rewrite Hexit. reflexivity.
  - intros s e Hlen Hexit Hconn.
    apply load_doc_from_url_exhausted; assumption.
Qed.

(** C7. An exception of an attempt that is not a connection error is raised
    to the caller by that very attempt: the replies that follow stay
    unread and the fetch made as many requests as attempts up to and
    including the failing one, none after it. *)
Theorem other_exception_not_retried url fs s e rest g :
  forallb (connection_failure BeautifulSoup) fs = true ->
  length fs < 3 ->
  attempt_exit BeautifulSoup s = Some (Raised e) ->
  is_ClientConnectionError e = false ->
  sem_value g <> 0%nat ->
  run (load_doc_from_url BeautifulSoup url) (concat fs ++ s ++ rest) g =
  (Raised e,
   flat_map (attempt_trace BeautifulSoup url) fs
     ++ attempt_trace BeautifulSoup url s,
   rest, advanced g (length fs + 1) 0)
  /\
  count is_get (flat_map (attempt_trace BeautifulSoup url) fs
                  ++ attempt_trace BeautifulSoup url s) = length fs + 1.
Proof.
  intros Hfs Hlen Hexit Hother Hfree. split.
  - apply (load_doc_from_url_exit url fs s (Raised e) rest g);
      try assumption.
    unfold connection_failure. rewrite Hexit. assumption.
  - rewrite count_app, (count_get_failed_attempts url fs Hfs),
      (count_get_attempt url s _ Hexit). reflexivity.
Qed.

End FetchProperties.

(** ** The event loop *)

Section LoopProperties.

Variable BeautifulSoup : str -> option Doc.

Ltac walk :=
  repeat (cbn;
          match goal with
          | |- _ /\ _ => split
          | |- forall ans : reply, _ => intros [?|?]
          | |- context [is_ClientConnectionError ?e] =>
              destruct (is_ClientConnectionError e)
          | |- context [BeautifulSoup ?b] => destruct (BeautifulSoup b)
          | |- True => exact I
          | |- _ <= _ => vm_compute; lia
          | |- _ = _ => reflexivity
          end).

(** Every fetch keeps its accounts in order, whatever the network answers. *)
Lemma load_doc_from_url_orderly url :
  along orderly settled (load_doc_from_url BeautifulSoup url) [].
Proof.
  unfold load_doc_from_url, retry_on_server_disconnect,
    load_doc_from_url_undecorated, async_with_OPEN_REQUESTS, parse,
    orderly, settled.
  walk.
Qed.

Lemma along_here {A} I Q (c : Coro A) h : along I Q c h -> I h.
Proof. destruct c; cbn; tauto. Qed.

Lemma sum_over_app f ts ts' :
  sum_over f (ts ++ ts') = sum_over f ts + sum_over f ts'.
Proof. unfold sum_over. apply sum_list_with_app. Qed.

Lemma sum_over_insert f (ts : list Task) i t t' :
  ts !! i = Some t ->
  sum_over f (<[i := t']> ts) + f (history t) =
  sum_over f ts + f (history t').
Proof.
  revert i. induction ts as [|t0 ts IH]; intros [|i] Hi; cbn in Hi;
    try discriminate.
  - injection Hi as ->. unfold sum_over. cbn.
    generalize (sum_list_with (fun t => f (history t)) ts). intros; lia.
  - specialize (IH i Hi). unfold sum_over in *.
    change (<[S i:=t']> (t0 :: ts)) with (t0 :: <[i:=t']> ts). cbn.
    revert IH.
    generalize (sum_list_with (fun t => f (history t)) (<[i:=t']> ts)).
    generalize (sum_list_with (fun t => f (history t)) ts). intros; lia.
Qed.

Lemma consistent_boot K : consistent K (boot K).
Proof.
  unfold consistent, boot, sum_over. cbn.
  repeat split; [constructor | lia].
Qed.

Lemma consistent_step K s m s' :
  consistent K s -> step BeautifulSoup s m = Some s' -> consistent K s'.
Proof.
  intros (Hall & Htotal & Hn & Hsem) Hstep. unfold consistent.
  destruct m as [url|tid ans]; cbn in Hstep.
  - injection Hstep as <-. cbn [globals tasks].
    rewrite !sum_over_app.
    change (sum_over _ [_]) with 0%nat at 1 2 3.
    repeat split; try lia.
    apply Forall_app. split; [assumption|].
    constructor; [|constructor]. apply load_doc_from_url_orderly.
  - destruct (tasks s !! tid) as [t|] eqn:Ht; [|discriminate].
    pose proof (Forall_lookup_1 _ _ _ _ Hall Ht) as Ht_ok.
    cbn in Ht_ok.
    pose proof (along_here _ _ _ _ Ht_ok) as Hh.
    destruct (coro t) as [x|e|a k|r k] eqn:Hcoro; try discriminate.
    + destruct (perform a (globals s)) as [g'|] eqn:Hperform; [|discriminate].
      injection Hstep as <-. cbn.
      destruct Ht_ok as [_ Hk]. pose proof (along_here _ _ _ _ Hk) as Hh'.
      set (t' := {| coro := k; history := history t ++ [EvDo a] |}).
      pose proof (sum_over_insert (count (is_do IncTotal)) _ _ _ t' Ht) as E1.
      pose proof (sum_over_insert (count (is_do Update)) _ _ _ t' Ht) as E2.
      pose proof (sum_over_insert permits_held _ _ _ t' Ht) as E3.
      unfold permits_held, orderly in *. subst t'. cbn [history] in *.
      rewrite !count_app in *.
      split; [apply Forall_insert; assumption|].
      destruct a; cbn in Hperform;
        try (destruct (Nat.eqb_spec (sem_value (globals s)) 0);
             [discriminate|]);
        injection Hperform as <-; unfold sum_over in *; cbn in *; lia.
    + injection Hstep as <-. cbn.
      specialize (proj2 Ht_ok ans) as Hk.
      pose proof (along_here _ _ _ _ Hk) as Hh'.
      set (t' := {| coro := k ans; history := history t ++ [EvAwait r ans] |}).
      pose proof (sum_over_insert (count (is_do IncTotal)) _ _ _ t' Ht) as E1.
      pose proof (sum_over_insert (count (is_do Update)) _ _ _ t' Ht) as E2.
      pose proof (sum_over_insert permits_held _ _ _ t' Ht) as E3.
      unfold permits_held, orderly in *. subst t'. cbn [history] in *.
      rewrite !count_app in *.
      split; [apply Forall_insert; assumption|].
      unfold sum_over in *. cbn in *. lia.
Qed.

Lemma consistent_exec K ms :
  forall s s',
    consistent K s -> exec BeautifulSoup s ms = Some s' -> consistent K s'.
Proof.
  induction ms as [|m ms IH]; intros s s' Hs Hexec; cbn in Hexec.
  - injection Hexec as <-. assumption.
  - destruct (step BeautifulSoup s m) as [s1|] eqn:Hstep; [|discriminate].
    eapply IH; [|eassumption]. eapply consistent_step; eassumption.
Qed.

Lemma consistent_reachable K ms s :
  exec BeautifulSoup (boot K) ms = Some s -> consistent K s.
Proof. apply consistent_exec, consistent_boot. Qed.

Lemma sum_over_le f f' (ts : list Task) :
  Forall (fun t => f (history t) <= f' (history t)) ts ->
  sum_over f ts <= sum_over f' ts.
Proof.
  unfold sum_over. induction 1 as [|t ts Ht _ IH]; cbn in *; lia.
Qed.

Lemma held_at_most_one t :
  along orderly settled (coro t) (history t) -> permits_held (history t) <= 1.
Proof.
  intros Halong. apply along_here in Halong as [Hperm _].
  unfold permits_held. lia.
Qed.

Lemma holders_sum (ts : list Task) :
  Forall (fun t => permits_held (history t) <= 1) ts ->
  length (List.filter (fun t => (0 <? permits_held (history t))%nat) ts) =
  sum_over permits_held ts.
Proof.
  unfold sum_over. induction 1 as [|t ts Ht _ IH]; [reflexivity|].
  cbn [List.filter sum_list_with].
  destruct (Nat.ltb_spec 0 (permits_held (history t))); cbn [length]; lia.
Qed.

Lemma holders_held K s :
  consistent K s -> holders s = sum_over permits_held (tasks s).
Proof.
  intros (Hall & _). apply holders_sum.
  eapply Forall_impl; [exact Hall|]. intros t. apply held_at_most_one.
Qed.

Lemma step_total_grows s m s' :
  step BeautifulSoup s m = Some s' ->
  pbar_total (globals s) <= pbar_total (globals s').
Proof.
  intros Hstep. destruct m as [url|tid ans]; cbn in Hstep.
  - injection Hstep as <-. cbn. lia.
  - destruct (tasks s !! tid) as [t|]; [|discriminate].
    destruct (coro t) as [x|e|a k|r k]; try discriminate.
    + destruct (perform a (globals s)) as [g'|] eqn:Hperform; [|discriminate].
      injection Hstep as <-. cbn.
      destruct a; cbn in Hperform;
        try (destruct (sem_value (globals s) =? 0)%nat; [discriminate|]);
        injection Hperform as <-; cbn; lia.
    + injection Hstep as <-. cbn. lia.
Qed.

Lemma returned_settled (ts : list Task) :
  Forall (fun t => along orderly settled (coro t) (history t)) ts ->
  forallb returned ts = true ->
  sum_over (count (is_do IncTotal)) ts =
  sum_over (count (is_do Update)) ts + sum_over (count is_failure) ts.
Proof.
  unfold sum_over.
  induction 1 as [|t ts Ht _ IH]; cbn; intros Hret; [reflexivity|].
  apply andb_prop in Hret as [Hret Hrets]. specialize (IH Hrets).
  unfold returned in Hret.
  destruct (coro t) as [x|e|a k|r k]; try discriminate.
  destruct Ht as (_ & _ & Hsettled). lia.
Qed.

(** C2, amended. At every point of a run the progress bar shows
    [n <= total], and no step of the event loop makes [total] smaller.
    [total] counts requests, one for each attempt of each fetch: once every
    fetch has returned, [total] is [n] plus the number of attempts that the
    network failed; the two are equal when no attempt had to be repeated. *)
Theorem progress_bar_counts K ms s :
  exec BeautifulSoup (boot K) ms = Some s ->
  pbar_n (globals s) <= pbar_total (globals s)
  /\ (forall m s', step BeautifulSoup s m = Some s' ->
                  pbar_total (globals s) <= pbar_total (globals s'))
  /\ (forallb returned (tasks s) = true ->
      pbar_total (globals s) = pbar_n (globals s) + failures s
      /\ (failures s = 0%nat -> pbar_n (globals s) = pbar_total (globals s))).
Proof.
  intros Hexec.
  destruct (consistent_reachable K ms s Hexec) as (Hall & Htotal & Hn & _).
  split; [|split].
  - rewrite Htotal, Hn. apply sum_over_le.
    eapply Forall_impl; [exact Hall|]. intros t Ht. cbn.
    apply along_here in Ht as [_ Hcount]. lia.
  - intros m s'. apply step_total_grows.
  - intros Hret. unfold failures.
    pose proof (returned_settled _ Hall Hret) as Hsum. lia.
Qed.

(** C5. Whatever the cap [K] and however the event loop interleaves the
    fetches, the number of fetches that are past [acquire] and before
    [release] never exceeds [K]. *)
Theorem open_requests_capped K ms s :
  exec BeautifulSoup (boot K) ms = Some s -> holders s <= K.
Proof.
  intros Hexec. pose proof (consistent_reachable K ms s Hexec) as Hs.
  rewrite (holders_held K s Hs). destruct Hs as (_ & _ & _ & Hsem). lia.
Qed.

(** C9. No permit is lost: at every point of a run a fetch holds at most
    the one permit of its current attempt, a fetch that has exited, by
    return or by an exception of the request or of the parser, has given
    back every permit it took, and the permits that are not in the
    semaphore are exactly those held by fetches between [acquire] and
    [release]. *)
Theorem permit_released_on_exit K ms s :
  exec BeautifulSoup (boot K) ms = Some s ->
  (forall t, In t (tasks s) ->
             permits_held (history t) <= 1
             /\ (exited t = true ->
                 count (is_do Release) (history t) =
                 count (is_do Acquire) (history t)))
  /\ sem_value (globals s) + holders s = K
  /\ (forallb exited (tasks s) = true -> sem_value (globals s) = K).
Proof.
  intros Hexec. pose proof (consistent_reachable K ms s Hexec) as Hs.
  pose proof (holders_held K s Hs) as Hholders.
  destruct Hs as (Hall & _ & _ & Hsem).
  assert (Hexit : forall t, In t (tasks s) -> exited t = true ->
                            count (is_do Release) (history t) =
                            count (is_do Acquire) (history t)).
  { intros t Hin Hex. rewrite List.Forall_forall in Hall.
    specialize (Hall t Hin). unfold exited in Hex.
    destruct (coro t) as [x|e|a k|r k]; try discriminate;
      destruct Hall as (_ & Hacq & _); lia. }
  split; [|split].
  - intros t Hin. split; [|apply Hexit; assumption].
    rewrite List.Forall_forall in Hall. apply held_at_most_one, Hall, Hin.
  - lia.
  - intros Hex.
    assert (Hzero : sum_over permits_held (tasks s) = 0%nat).
    { unfold sum_over. clear Hsem Hholders Hall.
      induction (tasks s) as [|t ts IH]; [reflexivity|].
      cbn in Hex. apply andb_prop in Hex as [Ht Hts]. cbn.
      rewrite IH; [|intros; apply Hexit; [right|]; assumption|assumption].
      unfold permits_held. rewrite (Hexit t); [lia|left; reflexivity|assumption]. }
    lia.
Qed.

End LoopProperties.

(** ** Whitespace in author names *)

Lemma sub_spaces_runs s :
  sub_spaces false s = collapse (runs s)
  /\ sub_spaces true s = collapse (drop_leading_space (runs s)).
Proof.
  induction s as [|c s [IHf IHt]]; [split; reflexivity|].
  cbn [sub_spaces runs].
  destruct (isspace c) eqn:Hc.
  - rewrite IHt.
    destruct (runs s) as [|[[|] r] rs]; cbn; split; reflexivity.
  - rewrite IHf.
    destruct (runs s) as [|[[|] r] rs]; cbn; split; reflexivity.
Qed.

(** [runs] cuts a string into its maximal runs: the runs make up the
    string, each is non-empty and of one kind, and neighbours are of
    different kinds. *)
Lemma runs_concat s : concat (map snd (runs s)) = s.
Proof.
  induction s as [|c s IH]; [reflexivity|]. cbn [runs].
  destruct (runs s) as [|[b r] rs]; cbn in *; [congruence|].
  destruct (Bool.eqb b (isspace c)); cbn; congruence.
Qed.

Lemma runs_of_one_kind s :
  Forall (fun br : bool * str =>
            snd br <> [] /\ Forall (fun c => isspace c = fst br) (snd br))
         (runs s).
Proof.
  induction s as [|c s IH]; [constructor|]. cbn [runs].
  destruct (runs s) as [|[b r] rs].
  - repeat constructor. discriminate.
  - destruct (Bool.eqb b (isspace c)) eqn:Hb.
    + apply Bool.eqb_prop in Hb. inversion IH as [|? ? [Hne Hall] Hrs]; subst.
      constructor; [|assumption]. cbn in *.
      split; [discriminate|]. constructor; [congruence|assumption].
    + constructor; [|assumption]. cbn.
      split; [discriminate|]. repeat constructor.
Qed.

Lemma runs_alternating s : alternating (runs s).
Proof.
  induction s as [|c s IH]; [exact I|]. cbn [runs].
  destruct (runs s) as [|[b r] rs] eqn:Hruns; [exact I|].
  destruct (Bool.eqb b (isspace c)) eqn:Hb.
  - destruct rs as [|br' rs']; [exact I|]. cbn in *. exact IH.
  - cbn. split; [|exact IH].
    intros Heq. rewrite Heq, Bool.eqb_reflx in Hb. discriminate.
Qed.

(** The author names of the table are the names of the frames, in the
    order of the sorted rows, with each maximal run of whitespace replaced
    by one space. *)
Lemma tabulate_authors papers df :
  tabulate papers = Returned df ->
  map row_Author df =
  map (fun r => single_spaced (row_Author r))
      (sort_values by_Year (sort_values by_Conference (concat papers))).
Proof.
  unfold tabulate, pd_concat. destruct papers as [|p ps]; [discriminate|].
  cbn [and_then_pure]. intros [= <-].
  unfold replace_spaces. rewrite map_map. apply map_ext.
  intros r. cbn. apply sub_spaces_runs.
Qed.

(** ** Sorting the table *)

Section Sorting.

Variable leb : Row -> Row -> bool.

Lemma insert_row_In x r df : In x (insert_row leb r df) <-> x = r \/ In x df.
Proof.
  induction df as [|r' df IH]; cbn.
  - intuition congruence.
  - destruct (leb r r'); cbn; [intuition congruence|].
    rewrite IH. intuition congruence.
Qed.


(** A row is inserted in front of the first row that is not before it: it
    passes no row of its own class. *)
Lemma filter_insert_row (p : Row -> bool) r df :
  (forall x, p r = true -> p x = true -> leb r x = true) ->
  List.filter p (insert_row leb r df) =
  if p r then r :: List.filter p df else List.filter p df.
Proof.
  intros Hclass. induction df as [|r' df IH]; cbn.
  - destruct (p r); reflexivity.
  - destruct (leb r r') eqn:Hle; cbn.
    + destruct (p r); reflexivity.
    + rewrite IH. destruct (p r) eqn:Hr, (p r') eqn:Hr'; try reflexivity.
      rewrite (Hclass r' eq_refl Hr') in Hle. discriminate.
Qed.

(** The sort is stable: rows that the order does not tell apart keep
    their places relative to each other. *)
Lemma filter_sort_values (p : Row -> bool) df :
  (forall x y, p x = true -> p y = true -> leb x y = true) ->
  List.filter p (sort_values leb df) = List.filter p df.
Proof.
  intros Hclass. induction df as [|r df IH]; [reflexivity|].
  change (sort_values leb (r :: df)) with (insert_row leb r (sort_values leb df)).
  rewrite filter_insert_row by (intros x; apply Hclass).
  rewrite IH. reflexivity.
Qed.

Hypothesis leb_total : forall x y, leb x y = true \/ leb y x = true.
Hypothesis leb_trans :
  forall x y z, leb x y = true -> leb y z = true -> leb x z = true.

Lemma insert_row_sorted r df :
  StronglySorted (fun x y => leb x y = true) df ->
  StronglySorted (fun x y => leb x y = true) (insert_row leb r df).
Proof.
  induction 1 as [|r' df Hsorted IH Hall]; cbn.
  - repeat constructor.
  - destruct (leb r r') eqn:Hle.
    + constructor; [constructor; assumption|].
      constructor; [assumption|].
      eapply Forall_impl; [exact Hall|]. cbn. intros x. apply leb_trans, Hle.
    + constructor; [assumption|].
      apply List.Forall_forall. intros x Hx. apply insert_row_In in Hx as [->|Hx].
      * destruct (leb_total r r') as [H|H]; [congruence|assumption].
      * rewrite List.Forall_forall in Hall. apply Hall, Hx.
Qed.

Lemma sort_values_sorted df :
  StronglySorted (fun x y => leb x y = true) (sort_values leb df).
Proof.
  induction df as [|r df IH]; [constructor|].
  change (sort_values leb (r :: df)) with (insert_row leb r (sort_values leb df)).
  apply insert_row_sorted, IH.
Qed.

(** A sorted table is determined by the rows of each key, in their order. *)
Lemma sorted_determined df1 :
  forall df2,
    StronglySorted (fun x y => leb x y = true) df1 ->
    StronglySorted (fun x y => leb x y = true) df2 ->
    (forall z, List.filter (same_key leb z) df1 =
               List.filter (same_key leb z) df2) ->
    df1 = df2.
Proof.
  assert (Hrefl : forall x, same_key leb x x = true).
  { intros x. unfold same_key. destruct (leb_total x x) as [H|H]; rewrite H; reflexivity. }
  assert (Hhead : forall x t df,
             StronglySorted (fun x y => leb x y = true) df ->
             List.filter (same_key leb x) (x :: t) =
             List.filter (same_key leb x) df ->
             forall y t', df = y :: t' -> leb y x = true).
  { intros x t df Hsorted Hfilter y t' ->.
    assert (Hin : In x (List.filter (same_key leb x) (y :: t'))).
    { rewrite <- Hfilter. cbn [List.filter]. rewrite Hrefl. left. reflexivity. }
    apply List.filter_In in Hin as [Hin _].
    destruct Hin as [->|Hin].
    - destruct (leb_total x x); assumption.
    - inversion Hsorted as [|? ? _ Hall]; subst.
      rewrite List.Forall_forall in Hall. apply Hall, Hin. }
  induction df1 as [|x t1 IH]; intros [|y t2] Hs1 Hs2 Hfilter.
  - reflexivity.
  - specialize (Hfilter y). cbn [List.filter] in Hfilter.
    rewrite Hrefl in Hfilter. discriminate.
  - specialize (Hfilter x). cbn [List.filter] in Hfilter.
    rewrite Hrefl in Hfilter. discriminate.
  - assert (Hyx : leb y x = true)
      by (eapply (Hhead x t1 (y :: t2)); [assumption|apply Hfilter|reflexivity]).
    assert (Hxy : leb x y = true)
      by (eapply (Hhead y t2 (x :: t1)); [assumption|symmetry; apply Hfilter|reflexivity]).
    assert (Heq : x = y).
    { specialize (Hfilter x). cbn [List.filter] in Hfilter.
      rewrite Hrefl in Hfilter. unfold same_key at 2 in Hfilter.
      rewrite Hxy, Hyx in Hfilter. cbn in Hfilter. congruence. }
    subst y. f_equal.
    inversion Hs1; inversion Hs2; subst.
    apply IH; try assumption.
    intros z. specialize (Hfilter z). cbn [List.filter] in Hfilter.
    destruct (same_key leb z x); congruence.
Qed.

(** Any stable sort by [leb] returns what [sort_values] returns. *)
Lemma stable_sort_unique df sorted :
  StronglySorted (fun x y => leb x y = true) sorted ->
  (forall z, List.filter (same_key leb z) sorted =
             List.filter (same_key leb z) df) ->
  sorted = sort_values leb df.
Proof.
  intros Hsorted Hstable. apply sorted_determined.
  - assumption.
  - apply sort_values_sorted.
  - intros z. rewrite Hstable. symmetry. apply filter_sort_values.
    intros x y Hx Hy. unfold same_key in *.
    apply andb_prop in Hx as [_ Hxz], Hy as [Hzy _].
    eapply leb_trans; eassumption.
Qed.

End Sorting.












(** ** The join of papers and authors *)

Lemma dict_snoc l k v : dict (l ++ [(k, v)]) = <[k := v]> (dict l).
Proof. unfold dict. rewrite foldl_app. reflexivity. Qed.

(** [dict] keeps, for each name, the affiliation of the last pair. *)
Lemma dict_lookup author_data name :
  dict author_data !! name = last_affiliation author_data name.
Proof.
  unfold last_affiliation.
  induction author_data as [|[k v] l IH] using rev_ind; [reflexivity|].
  rewrite dict_snoc, rev_unit. cbn [List.find fst].
  destruct (decide (k = name)) as [->|Hne].
  - rewrite lookup_insert_eq, bool_decide_eq_true_2; reflexivity.
  - rewrite lookup_insert_ne, bool_decide_eq_false_2; assumption.
Qed.

Lemma join_authors (d : gmap (list N) (list N)) (authors : list (str * str)) :
  for_each (fun a => let? affiliation := subscript d (fst a) in
                     Returned (fst a, affiliation)) authors =
  match List.filter (fun name => match d !! name with
                                 | Some _ => false
                                 | None => true
                                 end) (map fst authors) with
  | [] => Returned (map (fun a => (fst a, default [] (d !! fst a))) authors)
  | key :: _ => Raised (KeyError key)
  end.
Proof.
  induction authors as [|[name id] authors IH]; [reflexivity|].
  cbn [for_each map List.filter fst]. unfold subscript at 1.
  destruct (d !! name) as [v|]; cbn; [|reflexivity].
  rewrite IH. destruct (List.filter _ _); reflexivity.
Qed.

Lemma join_spec (d : gmap (list N) (list N))
    (paper_data : list (str * list (str * str))) :
  join d paper_data =
  match List.filter (fun name => match d !! name with
                                 | Some _ => false
                                 | None => true
                                 end)
                    (flat_map (fun p => map fst (snd p)) paper_data) with
  | [] => Returned (map (fun p => (fst p,
                                   map (fun a => (fst a, default [] (d !! fst a)))
                                       (snd p)))
                        paper_data)
  | key :: _ => Raised (KeyError key)
  end.
Proof.
  unfold join.
  induction paper_data as [|[title authors] paper_data IH]; [reflexivity|].
  cbn [for_each flat_map map fst snd]. rewrite join_authors, List.filter_app.
  destruct (List.filter _ (map fst authors)) as [|key keys]; cbn; [|reflexivity].
  rewrite IH. destruct (List.filter _ _); reflexivity.
Qed.

(** The join by name: it returns every paper with all its authors, in
    order, or raises [KeyError] for the first name that is missing. *)
Lemma join_dict author_data paper_data :
  join (dict author_data) paper_data =
  match missing_names author_data paper_data with
  | [] => Returned (joined_by_name author_data paper_data)
  | key :: _ => Raised (KeyError key)
  end.
Proof.
  rewrite join_spec. unfold missing_names, joined_by_name.
  erewrite List.filter_ext; [|intros name; rewrite dict_lookup; reflexivity].
  destruct (List.filter _ _); [|reflexivity].
  f_equal. apply map_ext. intros p. f_equal. apply map_ext.
  intros a. rewrite dict_lookup. reflexivity.
Qed.

(** ** Conference.scrape *)

Lemma author_url_inj self year id id' :
  author_url self year id = author_url self year id' -> id = id'.
Proof.
  unfold author_url. intros H.
  repeat apply app_inv_head in H. exact H.
Qed.

Lemma author_fetches_app url cs cs' :
  author_fetches url (cs ++ cs') = author_fetches url cs + author_fetches url cs'.
Proof. unfold author_fetches. rewrite List.filter_app, length_app. reflexivity. Qed.

Lemma author_fetches_other url cs :
  Forall (fun c => match c with load_author_call _ => False | _ => True end) cs ->
  author_fetches url cs = 0%nat.
Proof.
  unfold author_fetches. induction 1 as [|c cs Hc _ IH]; [reflexivity|].
  cbn. destruct c; cbn; try assumption. contradiction.
Qed.

Lemma author_fetches_ids self year id ids :
  author_fetches (author_url self year id)
    (map load_author_call (map (author_url self year) ids)) =
  length (List.filter (fun i => bool_decide (i = id)) ids).
Proof.
  unfold author_fetches. induction ids as [|i ids IH]; [reflexivity|].
  cbn [map List.filter is_load_author_of].
  destruct (decide (i = id)) as [->|Hne].
  - rewrite !bool_decide_eq_true_2 by reflexivity. cbn [length].
    rewrite IH. reflexivity.
  - rewrite (bool_decide_eq_false_2 (i = id)) by assumption.
    rewrite bool_decide_eq_false_2; [assumption|].
    intros Heq. apply Hne. eapply author_url_inj, Heq.
Qed.

Lemma once_in_NoDup (id : str) ids :
  List.NoDup ids -> In id ids ->
  length (List.filter (fun i => bool_decide (i = id)) ids) = 1%nat.
Proof.
  induction 1 as [|i ids Hnotin Hnodup IH]; intros Hin; [contradiction|].
  cbn. destruct (decide (i = id)) as [->|Hne].
  - rewrite bool_decide_eq_true_2 by reflexivity. cbn. f_equal.
    apply length_zero_iff_nil.
    destruct (List.filter _ ids) as [|j js] eqn:Hf; [reflexivity|].
    assert (Hj : In j (List.filter (fun i => bool_decide (i = id)) ids))
      by (rewrite Hf; left; reflexivity).
    apply List.filter_In in Hj as [Hj Heq].
    apply bool_decide_eq_true in Heq. subst j. contradiction.
  - rewrite bool_decide_eq_false_2 by assumption.
    apply IH. destruct Hin as [Heq|Hin]; [contradiction|assumption].
Qed.

Section ScraperProperties.

Variable BeautifulSoup : str -> option Doc.
Variable net : nat -> str -> list reply.
Variable list_of_set : list str -> list str.

(** A set lists each of its elements once. *)
Hypothesis list_of_set_NoDup : forall ids, List.NoDup (list_of_set ids).
Hypothesis list_of_set_In :
  forall ids id, In id (list_of_set ids) <-> In id ids.

Lemma await_calls c w :
  calls (snd (await_load_doc_from_url BeautifulSoup net c w)) = calls w ++ [c].
Proof.
  unfold await_load_doc_from_url.
  destruct (run _ _ _) as [[[o t] rest] g]. reflexivity.
Qed.

Lemma and_then_lift_calls {A B} (c : Async A) (f : A -> outcome B) w :
  calls (snd (and_then c (fun a => lift (f a)) w)) = calls (snd (c w)).
Proof.
  unfold and_then, lift. destruct (c w) as [[a|e|] w']; reflexivity.
Qed.

Lemma load_paper_ids_calls url w :
  calls (snd (load_paper_ids BeautifulSoup net url w)) =
  calls w ++ [load_paper_ids_call url].
Proof. unfold load_paper_ids. rewrite and_then_lift_calls. apply await_calls. Qed.

Lemma load_paper_calls url w :
  calls (snd (load_paper BeautifulSoup net url w)) =
  calls w ++ [load_paper_call url].
Proof. unfold load_paper. rewrite and_then_lift_calls. apply await_calls. Qed.

Lemma load_author_calls url w :
  calls (snd (load_author BeautifulSoup net url w)) =
  calls w ++ [load_author_call url].
Proof. unfold load_author. rewrite and_then_lift_calls. apply await_calls. Qed.

(** [gather] starts every task, whatever becomes of the others. *)
Lemma gather_calls {A} (f : str -> Async A) (mk : str -> call) links :
  (forall url w, calls (snd (f url w)) = calls w ++ [mk url]) ->
  forall w, calls (snd (gather (map f links) w)) = calls w ++ map mk links.
Proof.
  intros Hf. induction links as [|url links IH]; intros w; cbn.
  - rewrite app_nil_r. reflexivity.
  - specialize (Hf url w). destruct (f url w) as [o w1]. cbn in Hf.
    specialize (IH w1). destruct (gather (map f links) w1) as [os w2].
    cbn in *. rewrite IH, Hf, <- app_assoc. reflexivity.
Qed.

Lemma scrape_papers_calls self year w :
  exists cs,
    calls (snd (scrape_papers BeautifulSoup net self year w)) = calls w ++ cs
    /\ Forall (fun c => match c with load_author_call _ => False | _ => True end)
              cs.
Proof.
  unfold scrape_papers, and_then.
  pose proof (load_paper_ids_calls (papers_url self year) w) as Hids.
  destruct (load_paper_ids _ _ _ w) as [[paper_ids|e|] w1]; cbn in Hids.
  - rewrite (gather_calls _ load_paper_call); [|apply load_paper_calls].
    rewrite Hids, <- app_assoc. eexists. split; [reflexivity|].
    constructor; [exact I|]. apply Forall_map, Forall_true. intros; exact I.
  - exists [load_paper_ids_call (papers_url self year)].
    split; [assumption|]. repeat constructor.
  - exists [load_paper_ids_call (papers_url self year)].
    split; [assumption|]. repeat constructor.
Qed.

Lemma scrape_authors_calls self year paper_data w :
  calls (snd (scrape_authors BeautifulSoup net list_of_set self year paper_data w)) =
  calls w ++ map load_author_call
                 (map (author_url self year)
                      (author_ids_of list_of_set paper_data)).
Proof.
  unfold scrape_authors. rewrite (gather_calls _ load_author_call).
  - reflexivity.
  - apply load_author_calls.
Qed.

(** What [scrape] does after the papers and the authors are fetched. *)
Lemma scrape_after_authors self year w paper_data w1 author_data w2 :
  scrape_papers BeautifulSoup net self year w = (Returned paper_data, w1) ->
  scrape_authors BeautifulSoup net list_of_set self year paper_data w1 =
    (Returned author_data, w2) ->
  scrape BeautifulSoup net list_of_set self year w =
  (let? papers := join (dict author_data) paper_data in
   Returned (frame self year papers), w2).
Proof.
  intros Hpapers Hauthors. unfold scrape, and_then. rewrite Hpapers, Hauthors.
  unfold lift, ret. destruct (join _ _); reflexivity.
Qed.

Lemma scrape_world self year w paper_data w1 :
  scrape_papers BeautifulSoup net self year w = (Returned paper_data, w1) ->
  snd (scrape BeautifulSoup net list_of_set self year w) =
  snd (scrape_authors BeautifulSoup net list_of_set self year paper_data w1).
Proof.
  intros Hpapers. unfold scrape, and_then. rewrite Hpapers.
  destruct (scrape_authors _ _ _ _ _ _ w1) as [[author_data|e|] w2];
    try reflexivity.
  unfold lift, ret. destruct (join _ _); reflexivity.
Qed.

(** C4. Once the papers of a conference and year are fetched, [scrape]
    calls [load_author] exactly once for each author id that the papers
    refer to, on however many papers the id appears. *)
Theorem one_author_fetch_per_id self year w paper_data w1 :
  scrape_papers BeautifulSoup net self year w = (Returned paper_data, w1) ->
  exists issued,
    calls (snd (scrape BeautifulSoup net list_of_set self year w)) =
      calls w ++ issued
    /\ forall title authors name id,
         In (title, authors) paper_data ->
         In (name, id) authors ->
         author_fetches (author_url self year id) issued = 1%nat.
Proof.
  intros Hpapers.
  destruct (scrape_papers_calls self year w) as (cs & Hcs & Hkinds).
  rewrite Hpapers in Hcs. cbn in Hcs.
  rewrite (scrape_world self year w paper_data w1 Hpapers),
    scrape_authors_calls, Hcs, <- app_assoc.
  eexists. split; [reflexivity|].
  intros title authors name id Hpaper Hauthor.
  rewrite author_fetches_app, (author_fetches_other _ cs Hkinds),
    author_fetches_ids.
  apply once_in_NoDup; [apply list_of_set_NoDup|].
  apply list_of_set_In. apply in_flat_map.
  exists (title, authors). split; [assumption|].
  cbn. change id with (snd (name, id)). apply in_map. assumption.
Qed.

(** What the join does: [scrape] looks each author reference up by its
    display name, in the dictionary from the names shown on the fetched author
    pages to the affiliations shown there, where a later page replaces an
    earlier one of the same name.  When every display name is the name of
    a fetched page, each reference is joined, in order and none dropped,
    to its display name and the affiliation kept under that name; else
    [KeyError] for the first missing name ends the unit without rows. *)
Theorem join_by_display_name self year w paper_data w1 author_data w2 :
  scrape_papers BeautifulSoup net self year w = (Returned paper_data, w1) ->
  scrape_authors BeautifulSoup net list_of_set self year paper_data w1 =
    (Returned author_data, w2) ->
  scrape BeautifulSoup net list_of_set self year w =
  (match missing_names author_data paper_data with
   | [] => Returned (frame self year (joined_by_name author_data paper_data))
   | key :: _ => Raised (KeyError key)
   end, w2).
Proof.
  intros Hpapers Hauthors.
  rewrite (scrape_after_authors self year w paper_data w1 author_data w2
             Hpapers Hauthors), join_dict.
  destruct (missing_names author_data paper_data); reflexivity.
Qed.



End ScraperProperties.

(** ** main *)

Lemma range_empty a b : (b <= a)%Z -> range a b = [].
Proof.
  intros Hle. unfold range.
  replace (Z.to_nat (b - a)) with 0%nat by lia. reflexivity.
Qed.

Section MainProperties.

Variable BeautifulSoup : str -> option Doc.
Variable net : nat -> str -> list reply.
Variable list_of_set : list str -> list str.
Variable decimal : N -> option Z.
Variable writable : str -> bool.

(** C10, amended. For a range of years that starts after its end, [main]
    schedules no conference and year and fetches nothing; [pd.concat] of
    no frames then raises [ValueError], and no file is written. *)
Theorem reversed_range_raises args start end_ w :
  (0 <= parallel args)%Z ->
  year_bounds decimal (years args) = Returned (start, end_) ->
  (end_ < start)%Z ->
  units (range start (end_ + 1)) = []
  /\ main BeautifulSoup net list_of_set decimal writable args w =
     (Raised ValueError,
      {| shared := {| pbar_total := 0; pbar_n := 0;
                      sem_value := Z.to_nat (parallel args) |};
         calls := calls w; written := written w |}).
Proof.
  intros Hparallel Hbounds Hreversed.
  assert (Hrange : range start (end_ + 1) = []) by (apply range_empty; lia).
  split; [rewrite Hrange; reflexivity|].
  unfold main, and_then, new_Semaphore.
  destruct (Z.ltb_spec (parallel args) 0) as [|_]; [lia|].
  unfold lift. rewrite Hbounds. cbn [fst snd]. rewrite Hrange. reflexivity.
Qed.

End MainProperties.

(** * Examples *)

Example second_fetch_waits :
  (exec soup (boot 1) crowded_run ≫= fun s => step soup s (go 1)) = None.
Proof. vm_compute. reflexivity. Qed.

Example scrape_ICLR_2018 :
  fst (scrape soup web some_order ICLR 2018 ready) =
  Returned (frame ICLR 2018
              [(py "A Paper", [(py "J Smith", py "MIT"); (py "J Smith", py "MIT")]);
               (py "Another Paper", [(py "J Smith", py "MIT")])]).
Proof. vm_compute. reflexivity. Qed.

Lemma some_order_NoDup ids : List.NoDup (some_order ids).
Proof. unfold some_order. apply NoDup_ListNoDup, NoDup_remove_dups. Qed.

Lemma some_order_In ids id : In id (some_order ids) <-> In id ids.
Proof.
  unfold some_order. rewrite <- !list_elem_of_In. apply elem_of_remove_dups.
Qed.

(** C1. The join is not by author id.  Both authors of paper 77 are
    displayed as "J Smith"; the page fetched for the id 1 shows MIT and
    the page for the id 2 shows CMU.  In one
    iteration order of the set of ids every row gets MIT, in the other
    every row gets CMU; a join by id gives MIT to the references of the
    id 1 and CMU to the reference of the id 2. *)
Lemma join_is_not_by_author_id :
  fst (load_author soup web (author_url ICLR 2018 (py "1")) ready) =
    Returned smith_1
  /\ fst (load_author soup web (author_url ICLR 2018 (py "2")) ready) =
       Returned smith_2
  /\ fst (scrape soup web some_order ICLR 2018 ready) =
       Returned (frame ICLR 2018
                   [(py "A Paper", [smith_1; smith_1]);
                    (py "Another Paper", [smith_1])])
  /\ fst (scrape soup web reverse_order ICLR 2018 ready) =
       Returned (frame ICLR 2018
                   [(py "A Paper", [smith_2; smith_2]);
                    (py "Another Paper", [smith_2])])
  /\ join_by_id [py "1"; py "2"] [smith_1; smith_2] two_papers =
       Returned [(py "A Paper", [smith_1; smith_2]);
                 (py "Another Paper", [smith_1])].
Proof. repeat split; vm_compute; reflexivity. Qed.

Lemma join_by_display_name_witness :
  scrape soup web some_order ICLR 2018 ready =
  (match missing_names [smith_2; smith_1] two_papers with
   | [] => Returned (frame ICLR 2018
                       (joined_by_name [smith_2; smith_1] two_papers))
   | key :: _ => Raised (KeyError key)
   end,
   snd (scrape_authors soup web some_order ICLR 2018 two_papers
          (snd (scrape_papers soup web ICLR 2018 ready)))).
Proof.
  apply (join_by_display_name soup web some_order ICLR 2018 ready two_papers
           (snd (scrape_papers soup web ICLR 2018 ready)) [smith_2; smith_1]);
    vm_compute; reflexivity.
Defined.

(** A fetch whose first request is reset and whose second attempt
    succeeds has returned, and the progress bar shows 1 of 2. *)
Lemma retried_fetch_counted_twice :
  option_map (fun s => (forallb returned (tasks s),
                        pbar_n (globals s), pbar_total (globals s)))
             (exec soup (boot 1) retried_run) =
  Some (true, 1%nat, 2%nat).
Proof. vm_compute. reflexivity. Qed.

Lemma progress_bar_counts_witness :
  exists s,
    exec soup (boot 1) retried_run = Some s
    /\ pbar_n (globals s) <= pbar_total (globals s)
    /\ (forall m s', step soup s m = Some s' ->
                     pbar_total (globals s) <= pbar_total (globals s'))
    /\ (forallb returned (tasks s) = true ->
        pbar_total (globals s) = pbar_n (globals s) + failures s
        /\ (failures s = 0%nat -> pbar_n (globals s) = pbar_total (globals s))).
Proof.
  eexists. split; [vm_compute; reflexivity|].
  apply (progress_bar_counts soup 1 retried_run). vm_compute. reflexivity.
Defined.

Lemma retry_three_attempts_witness :
  run (load_doc_from_url soup (py "u"))
      (concat [[Fails reset]; [Gives []; Fails reset]]
         ++ [Gives []; Gives (py "L")] ++ []) gate_open =
    (Returned (Some listing_page),
     flat_map (attempt_trace soup (py "u"))
              [[Fails reset]; [Gives []; Fails reset]]
       ++ attempt_trace soup (py "u") [Gives []; Gives (py "L")],
     [], advanced gate_open 3 1)
  /\ run (load_doc_from_url soup (py "u"))
         (concat [[Fails reset]; [Gives []; Fails reset]]
            ++ [Fails reset] ++ []) gate_open =
       (Raised reset,
        flat_map (attempt_trace soup (py "u"))
                 [[Fails reset]; [Gives []; Fails reset]]
          ++ attempt_trace soup (py "u") [Fails reset]
          ++ [EvDo (Stdout (py "Client error, try again: {e}"))],
        [], advanced gate_open 3 0).
Proof.
  destruct (retry_three_attempts soup (py "u")
              [[Fails reset]; [Gives []; Fails reset]] [] gate_open)
    as [Hreturned Hraised]; [reflexivity|discriminate|].
  split.
  - apply Hreturned; [cbn; lia|reflexivity].
  - apply Hraised; reflexivity.
Defined.

Lemma other_exception_not_retried_witness :
  run (load_doc_from_url soup (py "u"))
      (concat [[Fails reset]] ++ [Gives []; Gives (py "?")]
         ++ [Gives []; Gives (py "L")]) gate_open =
    (Raised ParserError,
     flat_map (attempt_trace soup (py "u")) [[Fails reset]]
       ++ attempt_trace soup (py "u") [Gives []; Gives (py "?")],
     [Gives []; Gives (py "L")], advanced gate_open 2 0)
  /\ count is_get
       (flat_map (attempt_trace soup (py "u")) [[Fails reset]]
          ++ attempt_trace soup (py "u") [Gives []; Gives (py "?")]) = 2%nat.
Proof.
  apply (other_exception_not_retried soup (py "u") [[Fails reset]]
           [Gives []; Gives (py "?")] ParserError
           [Gives []; Gives (py "L")] gate_open);
    [reflexivity | cbn; lia | reflexivity | reflexivity | discriminate].
Defined.

Lemma one_author_fetch_per_id_witness :
  exists issued,
    calls (snd (scrape soup web some_order ICLR 2018 ready)) =
      calls ready ++ issued
    /\ forall title authors name id,
         In (title, authors) two_papers ->
         In (name, id) authors ->
         author_fetches (author_url ICLR 2018 id) issued = 1%nat.
Proof.
  apply (one_author_fetch_per_id soup web some_order some_order_NoDup
           some_order_In ICLR 2018 ready two_papers
           (snd (scrape_papers soup web ICLR 2018 ready))).
  vm_compute. reflexivity.
Defined.

Lemma open_requests_capped_witness :
  exists s, exec soup (boot 1) crowded_run = Some s /\ holders s <= 1.
Proof.
  eexists. split; [vm_compute; reflexivity|].
  apply (open_requests_capped soup 1 crowded_run). vm_compute. reflexivity.
Defined.

Lemma permit_released_on_exit_witness :
  exists s,
    exec soup (boot 1) retried_run = Some s
    /\ (forall t, In t (tasks s) ->
                  permits_held (history t) <= 1
                  /\ (exited t = true ->
                      count (is_do Release) (history t) =
                      count (is_do Acquire) (history t)))
    /\ sem_value (globals s) + holders s = 1%nat
    /\ (forallb exited (tasks s) = true -> sem_value (globals s) = 1%nat).
Proof.
  eexists. split; [vm_compute; reflexivity|].
  apply (permit_released_on_exit soup 1 retried_run). vm_compute. reflexivity.
Defined.

(** The years "2010-2008" are read as the range from 2010 to 2008; [main]
    ends by [ValueError], having fetched nothing and written no file. *)
Lemma reversed_range_is_an_error :
  year_bounds ascii_decimal (years reversed_args) = Returned (2010%Z, 2008%Z)
  /\ fst (main soup web some_order ascii_decimal any_path reversed_args module_loaded) =
       Raised ValueError
  /\ calls (snd (main soup web some_order ascii_decimal any_path reversed_args
                   module_loaded)) = []
  /\ written (snd (main soup web some_order ascii_decimal any_path reversed_args
                     module_loaded)) = None.
Proof. repeat split; vm_compute; reflexivity. Qed.

Lemma reversed_range_raises_witness :
  units (range 2010 (2008 + 1)) = []
  /\ main soup web some_order ascii_decimal any_path reversed_args module_loaded =
     (Raised ValueError,
      {| shared := {| pbar_total := 0; pbar_n := 0;
                      sem_value := Z.to_nat (parallel reversed_args) |};
         calls := calls module_loaded; written := written module_loaded |}).
Proof.
  apply (reversed_range_raises soup web some_order ascii_decimal any_path
           reversed_args
           2010%Z 2008%Z module_loaded);
    [cbn; lia | vm_compute; reflexivity | lia].
Defined.

(** * Further properties *)

(** ** The retry decorator, for any number of tries *)

Section RetryProperties.

Variable BeautifulSoup : str -> option Doc.

(** X1. [retry_on_server_disconnect n_tries] makes at most [n_tries] attempts:
    after fewer than [n_tries] connection errors, an attempt that returns
    or raises another exception ends the call with that exit; the
    [n_tries]-th connection error in a row is raised to the caller after
    the message is printed; and with [n_tries = 0] the function is not
    called at all and the wrapper returns [None]. *)
Theorem retry_budget n_tries url fs s o rest g :
  forallb (connection_failure BeautifulSoup) fs = true ->
  attempt_exit BeautifulSoup s = Some o ->
  sem_value g <> 0%nat ->
  (length fs < n_tries ->
   connection_failure BeautifulSoup s = false ->
   run (retry_on_server_disconnect n_tries
          (load_doc_from_url_undecorated BeautifulSoup) url)
       (concat fs ++ s ++ rest) g =
   (surfaced o,
    flat_map (attempt_trace BeautifulSoup url) fs
      ++ attempt_trace BeautifulSoup url s,
    rest, advanced g (length fs + 1) (completions o)))
  /\ (length fs + 1 = n_tries ->
      connection_failure BeautifulSoup s = true ->
      run (retry_on_server_disconnect n_tries
             (load_doc_from_url_undecorated BeautifulSoup) url)
          (concat fs ++ s ++ rest) g =
      (surfaced o,
       flat_map (attempt_trace BeautifulSoup url) fs
         ++ attempt_trace BeautifulSoup url s
         ++ [EvDo (Stdout (py "Client error, try again: {e}"))],
       rest, advanced g n_tries 0))
  /\ run (retry_on_server_disconnect 0
            (load_doc_from_url_undecorated BeautifulSoup) url) rest g =
     (Returned None, [], rest, g).
Proof.
  intros Hfs Hexit Hfree. split; [|split].
  - intros Hlen Hother. unfold retry_on_server_disconnect.
    replace (seq 0 n_tries) with (seq 0 (n_tries - 0)) by (f_equal; lia).
    rewrite (wrapper_loop_retries BeautifulSoup n_tries url fs (s ++ rest) 0 g
               Hfs Hfree) by (cbn; lia).
    cbn [Nat.add].
    replace (n_tries - length fs) with (S (n_tries - S (length fs))) by lia.
    cbn [seq].
    rewrite (wrapper_loop_iteration BeautifulSoup n_tries url _ _ s o rest _
               Hexit) by assumption.
    unfold connection_failure in Hother. rewrite Hexit in Hother.
    destruct o as [doc|e|]; cbn [surfaced completions].
    + rewrite advanced_advanced. reflexivity.
    + destruct (is_ClientConnectionError e); [discriminate|].
      rewrite advanced_advanced. reflexivity.
    + rewrite advanced_advanced. reflexivity.
  - intros Hlen Hconn. unfold retry_on_server_disconnect.
    replace (seq 0 n_tries) with (seq 0 (n_tries - 0)) by (f_equal; lia).
    rewrite (wrapper_loop_retries BeautifulSoup n_tries url fs (s ++ rest) 0 g
               Hfs Hfree) by (cbn; lia).
    cbn [Nat.add].
    replace (n_tries - length fs) with 1%nat by lia. cbn [seq].
    rewrite (wrapper_loop_iteration BeautifulSoup n_tries url _ _ s o rest _
               Hexit) by assumption.
    unfold connection_failure in Hconn. rewrite Hexit in Hconn.
    destruct o as [doc|e|]; try discriminate.
    rewrite Hconn.
    destruct (Nat.eqb_spec (length fs) (n_tries - 1)) as [_|Hne]; [|lia].
    rewrite advanced_advanced. cbn [surfaced].
    replace (length fs + 1) with n_tries by lia. reflexivity.
  - reflexivity.
Qed.

End RetryProperties.

Lemma retry_budget_witness :
  run (retry_on_server_disconnect 2 (load_doc_from_url_undecorated soup)
         (py "u"))
      (concat [[Fails reset]] ++ [Gives []; Gives (py "L")] ++ []) gate_open =
  (Returned (Some listing_page),
   flat_map (attempt_trace soup (py "u")) [[Fails reset]]
     ++ attempt_trace soup (py "u") [Gives []; Gives (py "L")],
   [], advanced gate_open 2 1).
Proof.
  apply (proj1 (retry_budget soup 2 (py "u") [[Fails reset]]
                  [Gives []; Gives (py "L")] (Returned listing_page) []
                  gate_open eq_refl eq_refl ltac:(discriminate)));
    [cbn; lia | reflexivity].
Defined.

(** ** Requests pass the gate *)

Section TaskInvariant.

Variable BeautifulSoup : str -> option Doc.

(** A property of the place of a task in its coroutine and of its history
    that holds when a fetch starts and is kept by each step. *)
Variable P : Coro (option Doc) -> list event -> Prop.
Hypothesis P_start : forall url, P (load_doc_from_url BeautifulSoup url) [].
Hypothesis P_do : forall a k h, P (Do a k) h -> P k (h ++ [EvDo a]).
Hypothesis P_await :
  forall r k h ans, P (Await r k) h -> P (k ans) (h ++ [EvAwait r ans]).

Lemma task_invariant_step s m s' :
  Forall (fun t => P (coro t) (history t)) (tasks s) ->
  step BeautifulSoup s m = Some s' ->
  Forall (fun t => P (coro t) (history t)) (tasks s').
Proof.
  intros Hall Hstep. destruct m as [url|tid ans]; cbn in Hstep.
  - injection Hstep as <-. cbn. apply Forall_app. split; [assumption|].
    constructor; [apply P_start|constructor].
  - destruct (tasks s !! tid) as [t|] eqn:Ht; [|discriminate].
    pose proof (Forall_lookup_1 _ _ _ _ Hall Ht) as Ht_ok. cbn in Ht_ok.
    destruct (coro t) as [x|e|a k|r k]; try discriminate.
    + destruct (perform a (globals s)) as [g'|]; [|discriminate].
      injection Hstep as <-. cbn. apply Forall_insert; [assumption|].
      cbn. apply P_do, Ht_ok.
    + injection Hstep as <-. cbn. apply Forall_insert; [assumption|].
      cbn. apply P_await, Ht_ok.
Qed.

Lemma task_invariant_reachable K ms s :
  exec BeautifulSoup (boot K) ms = Some s ->
  Forall (fun t => P (coro t) (history t)) (tasks s).
Proof.
  assert (Hgen : forall ms s0 s1,
             Forall (fun t => P (coro t) (history t)) (tasks s0) ->
             exec BeautifulSoup s0 ms = Some s1 ->
             Forall (fun t => P (coro t) (history t)) (tasks s1)).
  { clear ms s. induction ms as [|m ms IH]; intros s0 s1 H0 Hexec;
      cbn in Hexec.
    - injection Hexec as <-. assumption.
    - destruct (step BeautifulSoup s0 m) as [s'|] eqn:Hstep; [|discriminate].
      eapply IH; [|eassumption]. eapply task_invariant_step; eassumption. }
  apply Hgen. constructor.
Qed.

End TaskInvariant.

Section GateProperties.

Variable BeautifulSoup : str -> option Doc.

Ltac stroll :=
  repeat (cbn;
          match goal with
          | |- _ /\ _ => split
          | |- forall ans : reply, _ => intros [?|?]
          | |- context [is_ClientConnectionError ?e] =>
              destruct (is_ClientConnectionError e)
          | |- context [BeautifulSoup ?b] => destruct (BeautifulSoup b)
          | |- True => exact I
          | |- _ <= _ => vm_compute; lia
          | |- _ < _ => vm_compute; lia
          end).

Lemma load_doc_from_url_gated url :
  gated (load_doc_from_url BeautifulSoup url) [].
Proof.
  unfold load_doc_from_url, retry_on_server_disconnect,
    load_doc_from_url_undecorated, async_with_OPEN_REQUESTS, parse.
  stroll.
Qed.

Lemma load_doc_from_url_within_budget url :
  along within_budget (fun _ _ => True)
        (load_doc_from_url BeautifulSoup url) [].
Proof.
  unfold load_doc_from_url, retry_on_server_disconnect,
    load_doc_from_url_undecorated, async_with_OPEN_REQUESTS, parse,
    within_budget.
  stroll.
Qed.

Lemma filter_length_le {A} (p q : A -> bool) l :
  (forall x, In x l -> p x = true -> q x = true) ->
  length (List.filter p l) <= length (List.filter q l).
Proof.
  induction l as [|x l IH]; intros Hpq; [reflexivity|]. cbn.
  assert (IH' : length (List.filter p l) <= length (List.filter q l))
    by (apply IH; intros y Hy; apply Hpq; right; assumption).
  destruct (p x) eqn:Hp.
  - rewrite (Hpq x (or_introl eq_refl) Hp). cbn. lia.
  - destruct (q x); cbn; lia.
Qed.

(** X2. At every point of a run, a fetch that waits for an answer of the
    network holds a permit, so that no more than [K] requests are in
    flight at once. *)
Theorem requests_in_flight_capped K ms s :
  exec BeautifulSoup (boot K) ms = Some s ->
  (forall t, In t (tasks s) -> awaiting t = true ->
             permits_held (history t) = 1%nat)
  /\ in_flight s <= K.
Proof.
  intros Hexec.
  pose proof (consistent_reachable BeautifulSoup K ms s Hexec) as Hs.
  pose proof (task_invariant_reachable BeautifulSoup (fun c h => gated c h)
                (load_doc_from_url_gated)
                (fun a k h H => H)
                (fun r k h ans H => proj2 H ans) K ms s Hexec) as Hgated.
  assert (Hone : forall t, In t (tasks s) -> awaiting t = true ->
                           permits_held (history t) = 1%nat).
  { intros t Hin Haw.
    destruct Hs as (Hall & _). rewrite List.Forall_forall in Hall, Hgated.
    pose proof (held_at_most_one t (Hall t Hin)) as Hle.
    specialize (Hgated t Hin). unfold awaiting in Haw.
    destruct (coro t) as [x|e|a k|r k]; try discriminate.
    destruct Hgated as [Hpos _]. lia. }
  split; [exact Hone|].
  transitivity (holders s).
  - unfold in_flight, holders. apply filter_length_le.
    intros t Hin Haw. rewrite (Hone t Hin Haw). reflexivity.
  - rewrite (holders_held K s Hs). destruct Hs as (_ & _ & _ & Hsem). lia.
Qed.

(** X3. Whatever the network answers, a fetch sends at most three
    requests, and the progress bar never shows a total of more than three
    times the number of fetches started. *)
Theorem at_most_three_requests K ms s :
  exec BeautifulSoup (boot K) ms = Some s ->
  (forall t, In t (tasks s) -> count is_get (history t) <= 3)
  /\ pbar_total (globals s) <= 3 * length (tasks s).
Proof.
  intros Hexec.
  pose proof (consistent_reachable BeautifulSoup K ms s Hexec)
    as (_ & Htotal & _).
  pose proof (task_invariant_reachable BeautifulSoup
                (fun c h => along within_budget (fun _ _ => True) c h)
                (load_doc_from_url_within_budget)
                (fun a k h H => proj2 H)
                (fun r k h ans H => proj2 H ans) K ms s Hexec) as Hbudget.
  assert (Hall : Forall (fun t => within_budget (history t)) (tasks s)).
  { eapply Forall_impl; [exact Hbudget|]. intros t. apply along_here. }
  split.
  - intros t Hin. rewrite List.Forall_forall in Hall.
    destruct (Hall t Hin). lia.
  - rewrite Htotal. unfold sum_over. clear -Hall.
    induction Hall as [|t ts [Ht _] _ IH]; cbn; lia.
Qed.

End GateProperties.

Lemma requests_in_flight_capped_witness :
  exists s,
    exec soup (boot 1) crowded_run = Some s
    /\ (forall t, In t (tasks s) -> awaiting t = true ->
                  permits_held (history t) = 1%nat)
    /\ in_flight s <= 1.
Proof.
  eexists. split; [vm_compute; reflexivity|].
  apply (requests_in_flight_capped soup 1 crowded_run). vm_compute. reflexivity.
Defined.

Lemma at_most_three_requests_witness :
  exists s,
    exec soup (boot 1) retried_run = Some s
    /\ (forall t, In t (tasks s) -> count is_get (history t) <= 3)
    /\ pbar_total (globals s) <= 3 * length (tasks s).
Proof.
  eexists. split; [vm_compute; reflexivity|].
  apply (at_most_three_requests soup 1 retried_run). vm_compute. reflexivity.
Defined.

(** ** Years: written in URLs, read from the command line *)

Lemma uint_value_of_uint_acc d :
  forall acc, Z.pos (Pos.of_uint_acc d acc) = uint_value (Z.pos acc) d.
Proof.
  induction d as [|d IH|d IH|d IH|d IH|d IH|d IH|d IH|d IH|d IH|d IH];
    intros acc; cbn [Pos.of_uint_acc uint_value];
    [reflexivity|rewrite IH; f_equal; lia..].
Qed.

Lemma uint_value_of_uint d : Z.of_N (Pos.of_uint d) = uint_value 0 d.
Proof.
  induction d as [|d IH|d IH|d IH|d IH|d IH|d IH|d IH|d IH|d IH|d IH];
    cbn [Pos.of_uint uint_value Z.of_N];
    [reflexivity|exact IH|apply uint_value_of_uint_acc..].
Qed.

Lemma lstrip_no_space s :
  Forall (fun c => isspace c = false) s -> lstrip s = s.
Proof. intros [|c s' Hc _]; [reflexivity|]. cbn. rewrite Hc. reflexivity. Qed.

Lemma strip_no_space s :
  Forall (fun c => isspace c = false) s -> strip s = s.
Proof.
  intros Hs. unfold strip. rewrite (lstrip_no_space s Hs).
  rewrite lstrip_no_space by (apply List.Forall_rev; assumption).
  apply rev_involutive.
Qed.

Lemma int_lstrip_no_space s :
  Forall (fun c => isspace c = false) s -> int_lstrip s = s.
Proof.
  intros [|c s' Hc _]; [reflexivity|]. cbn [int_lstrip].
  unfold int_isspace. rewrite Hc. reflexivity.
Qed.

Lemma int_strip_no_space s :
  Forall (fun c => isspace c = false) s -> int_strip s = s.
Proof.
  intros Hs. unfold int_strip. rewrite (int_lstrip_no_space s Hs).
  rewrite int_lstrip_no_space by (apply List.Forall_rev; assumption).
  apply rev_involutive.
Qed.

Lemma uint_text_digits d :
  Forall (fun c => ascii_digit c = true) (py (NilEmpty.string_of_uint d)).
Proof.
  induction d; cbn; constructor; try reflexivity; assumption.
Qed.

Lemma ascii_digit_cases c :
  ascii_digit c = true ->
  (c = 48 \/ c = 49 \/ c = 50 \/ c = 51 \/ c = 52 \/ c = 53 \/ c = 54
   \/ c = 55 \/ c = 56 \/ c = 57)%N.
Proof.
  unfold ascii_digit. intros H.
  apply andb_prop in H as [H1 H2]. apply N.leb_le in H1, H2. lia.
Qed.

Lemma ascii_digit_no_space c : ascii_digit c = true -> isspace c = false.
Proof.
  intros H. apply ascii_digit_cases in H.
  repeat destruct H as [->|H]; try subst c; reflexivity.
Qed.

Section YearProperties.

Variable decimal : N -> option Z.

(** The digits "0" to "9" have their values, and "-" is no digit. *)
Hypothesis decimal_ascii :
  forall c, ascii_digit c = true -> decimal c = Some (Z.of_N c - 48)%Z.
Hypothesis decimal_minus : decimal 45 = None.

Lemma int_digits_uint d :
  forall acc after_digit,
    int_digits decimal acc after_digit (py (NilEmpty.string_of_uint d)) =
    match d with
    | Decimal.Nil => if after_digit then Some acc else None
    | _ => Some (uint_value acc d)
    end.
Proof.
  induction d as [|d IH|d IH|d IH|d IH|d IH|d IH|d IH|d IH|d IH|d IH];
    intros acc after_digit; [reflexivity|..];
    change (py (NilEmpty.string_of_uint ?u)) with
      (py (NilEmpty.string_of_uint u));
    cbn [NilEmpty.string_of_uint py list_ascii_of_string map int_digits];
    match goal with
    | |- context [N_of_ascii ?a] =>
        change (N_of_ascii a) with (ltac:(let v := eval vm_compute in (N_of_ascii a) in exact v))
    end;
    cbn [N.eqb Pos.eqb]; rewrite decimal_ascii by reflexivity;
    fold (py (NilEmpty.string_of_uint d)); rewrite IH;
    cbn [uint_value]; destruct d; reflexivity.
Qed.

Lemma int_value_no_sign (d : Decimal.uint) :
  d <> Decimal.Nil ->
  int_value decimal (py (NilEmpty.string_of_uint d)) =
  int_digits decimal 0 false (py (NilEmpty.string_of_uint d)).
Proof. destruct d; [congruence|reflexivity..]. Qed.

(** The decimal text of a number, as [format_d] writes it. *)
Lemma format_d_text z :
  format_d z =
  match Z.to_int z with
  | Decimal.Pos d => py (NilEmpty.string_of_uint d)
  | Decimal.Neg d => 45%N :: py (NilEmpty.string_of_uint d)
  end
  /\ match Z.to_int z with
     | Decimal.Pos d | Decimal.Neg d => d <> Decimal.Nil
     end.
Proof.
  unfold format_d. destruct z as [|p|p]; cbn [Z.to_int].
  - split; [reflexivity|discriminate].
  - pose proof (Unsigned.to_uint_nonnil p) as Hp. split; [|assumption].
    cbn [NilZero.string_of_int]. destruct (Pos.to_uint p); [congruence|reflexivity..].
  - pose proof (Unsigned.to_uint_nonnil p) as Hp. split; [|assumption].
    cbn [NilZero.string_of_int]. destruct (Pos.to_uint p); [congruence|reflexivity..].
Qed.

(** The sign and the digits that [format_d] writes are read back. *)
Lemma int_value_format_d z : int_value decimal (format_d z) = Some z.
Proof.
  destruct (format_d_text z) as [Htext Hnonnil].
  pose proof (DecimalZ.of_to z) as Hz.
  rewrite Htext.
  destruct (Z.to_int z) as [d|d]; cbn [Z.of_int] in Hz; unfold Z.of_uint in Hz;
    rewrite uint_value_of_uint in Hz.
  - rewrite int_value_no_sign by assumption. rewrite int_digits_uint.
    destruct d; [congruence|rewrite Hz; reflexivity..].
  - change (int_value decimal (45%N :: py (NilEmpty.string_of_uint d)))
      with (Z.opp <$> int_digits decimal 0 false
                        (py (NilEmpty.string_of_uint d))).
    rewrite int_digits_uint.
    destruct d; [congruence|cbn [fmap option_fmap option_map]; f_equal; lia..].
Qed.

Lemma format_d_inj z z' : format_d z = format_d z' -> z = z'.
Proof.
  intros H. pose proof (int_value_format_d z) as Hz.
  rewrite H, int_value_format_d in Hz. congruence.
Qed.

Lemma format_d_no_space z : Forall (fun c => isspace c = false) (format_d z).
Proof.
  destruct (format_d_text z) as [-> _].
  destruct (Z.to_int z) as [d|d]; [|constructor; [reflexivity|]];
    (eapply Forall_impl; [apply uint_text_digits|]);
    intros c; apply ascii_digit_no_space.
Qed.

(** [int] reads back what [format_d] writes in no more digits than [int]
    accepts. *)
Lemma int_format_d z :
  (Z.of_nat (length (format_d z)) <= int_max_str_digits)%Z ->
  int decimal (format_d z) = Some z.
Proof.
  intros Hlen. unfold int.
  rewrite (int_strip_no_space _ (format_d_no_space z)).
  pose proof (List.filter_length_le (isdecimal decimal) (format_d z)) as Hle.
  destruct (Z.ltb_spec int_max_str_digits
              (Z.of_nat (length (List.filter (isdecimal decimal) (format_d z)))))
    as [Hlt|_]; [lia|].
  apply int_value_format_d.
Qed.

Hypothesis decimal_newline : decimal 10 = None.

Lemma span_digits_inv s :
  forall ds rest,
    span_digits decimal s = (ds, rest) ->
    s = ds ++ rest
    /\ Forall (fun c => isdecimal decimal c = true) ds
    /\ match rest with
       | c :: _ => isdecimal decimal c = false
       | [] => True
       end.
Proof.
  induction s as [|c s IH]; intros ds rest Hspan; cbn in Hspan.
  - injection Hspan as <- <-. repeat split. constructor.
  - destruct (isdecimal decimal c) eqn:Hc.
    + destruct (span_digits decimal s) as [ds' rest'].
      injection Hspan as <- <-.
      destruct (IH ds' rest' eq_refl) as (-> & Hds & Hrest).
      repeat split; [constructor|]; assumption.
    + injection Hspan as <- <-. repeat split; [constructor|assumption].
Qed.

Lemma span_digits_app ds rest :
  Forall (fun c => isdecimal decimal c = true) ds ->
  match rest with
  | c :: _ => isdecimal decimal c = false
  | [] => True
  end ->
  span_digits decimal (ds ++ rest) = (ds, rest).
Proof.
  intros Hds Hrest. induction Hds as [|c ds Hc _ IH]; cbn.
  - destruct rest as [|c rest]; [reflexivity|]. cbn. rewrite Hrest. reflexivity.
  - rewrite Hc, IH. reflexivity.
Qed.

Lemma isdecimal_minus : isdecimal decimal 45 = false.
Proof. unfold isdecimal. rewrite decimal_minus. reflexivity. Qed.

Lemma isdecimal_newline : isdecimal decimal 10 = false.
Proof. unfold isdecimal. rewrite decimal_newline. reflexivity. Qed.

Lemma match_year_range_iff years g1 g2 :
  match_year_range decimal years = Some (g1, g2) <->
  g1 <> [] /\ g2 <> []
  /\ Forall (fun c => isdecimal decimal c = true) g1
  /\ Forall (fun c => isdecimal decimal c = true) g2
  /\ (years = g1 ++ 45%N :: g2 \/ years = g1 ++ 45%N :: g2 ++ [10%N]).
Proof.
  unfold match_year_range. split.
  - destruct (span_digits decimal years) as [ds rest] eqn:Hspan.
    apply span_digits_inv in Hspan as (-> & Hds & _).
    destruct ds as [|d ds]; [discriminate|].
    destruct rest as [|c rest]; [discriminate|].
    intros H.
    assert (Hc : c = 45%N).
    { destruct (N.eqb_spec c 45) as [|Hne]; [assumption|]. exfalso.
      destruct c as [|p]; [discriminate H|].
      repeat (match type of H with
              | context [match ?q with _ => _ end] => is_var q; destruct q
              end; try discriminate H).
      apply Hne. reflexivity. }
    subst c.
    destruct (span_digits decimal rest) as [ds2 tail] eqn:Hspan2.
    apply span_digits_inv in Hspan2 as (-> & Hds2 & _).
    destruct ds2 as [|d2 ds2]; [destruct tail as [|? [|? ?]]; discriminate|].
    destruct tail as [|t [|t' tail]].
    + injection H as <- <-. rewrite app_nil_r.
      repeat split; try discriminate; try assumption. left. reflexivity.
    + assert (Ht : t = 10%N).
      { destruct (N.eqb_spec t 10) as [|Hne]; [assumption|]. exfalso.
        destruct t as [|p]; [discriminate H|].
        repeat (match type of H with
                | context [match ?q with _ => _ end] => is_var q; destruct q
                end; try discriminate H).
        apply Hne. reflexivity. }
      subst t. injection H as <- <-.
      repeat split; try discriminate; try assumption. right. reflexivity.
    + exfalso. destruct t as [|p]; [discriminate H|].
      repeat (match type of H with
              | context [match ?q with _ => _ end] => is_var q; destruct q
              end; try discriminate H).
  - intros (Hg1 & Hg2 & Hd1 & Hd2 & [->| ->]).
    + rewrite span_digits_app; [|assumption|apply isdecimal_minus].
      destruct g1 as [|d1 g1]; [congruence|].
      rewrite <- (app_nil_r g2) at 1.
      rewrite span_digits_app; [|assumption|exact I].
      destruct g2 as [|d2 g2]; [congruence|reflexivity].
    + rewrite span_digits_app; [|assumption|apply isdecimal_minus].
      destruct g1 as [|d1 g1]; [congruence|].
      rewrite span_digits_app; [|assumption|apply isdecimal_newline].
      destruct g2 as [|d2 g2]; [congruence|reflexivity].
Qed.

(** X4. The pattern of a range of years matches exactly the texts made of
    one or more digits, "-", and one or more digits, with or without a
    newline at the end; the groups are the two runs of digits. *)
Theorem year_range_shape years g1 g2 :
  match_year_range decimal years = Some (g1, g2) <->
  g1 <> [] /\ g2 <> []
  /\ Forall (fun c => isdecimal decimal c = true) g1
  /\ Forall (fun c => isdecimal decimal c = true) g2
  /\ (years = g1 ++ 45%N :: g2 \/ years = g1 ++ 45%N :: g2 ++ [10%N]).
Proof. apply match_year_range_iff. Qed.

Lemma format_d_nonneg a :
  (0 <= a)%Z ->
  format_d a <> [] /\ Forall (fun c => ascii_digit c = true) (format_d a).
Proof.
  intros Ha. destruct (format_d_text a) as [Htext Hnonnil]. rewrite Htext.
  destruct a as [|p|p]; [| |lia]; cbn [Z.to_int] in *.
  - split; [discriminate|]. repeat constructor.
  - split; [|apply uint_text_digits].
    destruct (Pos.to_uint p); [congruence|discriminate..].
Qed.

Lemma ascii_digit_isdecimal c :
  ascii_digit c = true -> isdecimal decimal c = true.
Proof. intros Hc. unfold isdecimal. rewrite decimal_ascii; [reflexivity|assumption]. Qed.

Lemma ascii_digits_no_minus s :
  Forall (fun c => ascii_digit c = true) s -> existsb (N.eqb 45) s = false.
Proof.
  induction 1 as [|c s Hc _ IH]; [reflexivity|]. cbn. rewrite IH.
  apply ascii_digit_cases in Hc.
  repeat destruct Hc as [->|Hc]; try subst c; reflexivity.
Qed.

(** X5. A range of years written in decimal, as in "2008-2010", each
    year in no more digits than [int] accepts (4300), is read as its two
    years, and a single year as the range from that year to itself. *)
Theorem years_read_back a b :
  (0 <= a)%Z -> (0 <= b)%Z ->
  (Z.of_nat (length (format_d a)) <= int_max_str_digits)%Z ->
  (Z.of_nat (length (format_d b)) <= int_max_str_digits)%Z ->
  year_bounds decimal (format_d a ++ py "-" ++ format_d b) = Returned (a, b)
  /\ year_bounds decimal (format_d a) = Returned (a, a).
Proof.
  intros Ha Hb Hadigits_few Hbdigits_few.
  destruct (format_d_nonneg a Ha) as [Hane Hadigits].
  destruct (format_d_nonneg b Hb) as [Hbne Hbdigits].
  unfold year_bounds. split.
  - rewrite existsb_app. cbn [py list_ascii_of_string map app existsb].
    change (N_of_ascii "-") with 45%N. cbn [N.eqb Pos.eqb orb].
    rewrite orb_true_r.
    assert (Hmatch : match_year_range decimal (format_d a ++ 45%N :: format_d b) =
                     Some (format_d a, format_d b)).
    { apply match_year_range_iff. repeat split; try assumption.
      - eapply Forall_impl; [exact Hadigits|]. apply ascii_digit_isdecimal.
      - eapply Forall_impl; [exact Hbdigits|]. apply ascii_digit_isdecimal.
      - left. reflexivity. }
    rewrite Hmatch, !int_format_d by assumption. reflexivity.
  - rewrite (ascii_digits_no_minus _ Hadigits), int_format_d by assumption.
    reflexivity.
Qed.

End YearProperties.

Lemma ascii_decimal_digits c :
  ascii_digit c = true -> ascii_decimal c = Some (Z.of_N c - 48)%Z.
Proof. unfold ascii_decimal, ascii_digit. intros ->. reflexivity. Qed.

Lemma year_range_shape_witness :
  match_year_range ascii_decimal (py "2008-2010") =
    Some (py "2008", py "2010") <->
  py "2008" <> [] /\ py "2010" <> []
  /\ Forall (fun c => isdecimal ascii_decimal c = true) (py "2008")
  /\ Forall (fun c => isdecimal ascii_decimal c = true) (py "2010")
  /\ (py "2008-2010" = py "2008" ++ 45%N :: py "2010"
      \/ py "2008-2010" = py "2008" ++ 45%N :: py "2010" ++ [10%N]).
Proof.
  apply (year_range_shape ascii_decimal); reflexivity.
Defined.

Lemma years_read_back_witness :
  year_bounds ascii_decimal (format_d 2008 ++ py "-" ++ format_d 2010) =
    Returned (2008%Z, 2010%Z)
  /\ year_bounds ascii_decimal (format_d 2008) = Returned (2008%Z, 2008%Z).
Proof.
  apply (years_read_back ascii_decimal ascii_decimal_digits eq_refl eq_refl
           2008%Z 2010%Z); [lia | lia | vm_compute; discriminate..].
Defined.

(** ** The conferences and years that are scraped *)

Lemma In_range a b y : In y (range a b) <-> (a <= y < b)%Z.
Proof.
  unfold range. rewrite in_map_iff. split.
  - intros (i & <- & Hi). apply in_seq in Hi. lia.
  - intros Hy. exists (Z.to_nat (y - a)). split; [lia|].
    apply in_seq. lia.
Qed.

Lemma NoDup_range a b : List.NoDup (range a b).
Proof.
  unfold range. apply NoDup_map_NoDup_ForallPairs; [|apply seq_NoDup].
  intros i j _ _ Hij. lia.
Qed.

Lemma NoDup_CONFERENCES : List.NoDup CONFERENCES.
Proof.
  unfold CONFERENCES. repeat constructor; cbn; intuition discriminate.
Qed.

Lemma In_units conf year year_range :
  In (conf, year) (units year_range) <->
  In conf CONFERENCES /\ In year year_range /\ (first_year conf <= year)%Z.
Proof.
  unfold units. rewrite in_flat_map. split.
  - intros (c & Hc & Hin). apply in_map_iff in Hin as (y & [= <- <-] & Hy).
    apply List.filter_In in Hy as [Hy Hfirst].
    repeat split; try assumption. lia.
  - intros (Hc & Hy & Hfirst). exists conf. split; [assumption|].
    apply in_map_iff. exists year. split; [reflexivity|].
    apply List.filter_In. split; [assumption|]. lia.
Qed.

Lemma NoDup_units year_range :
  List.NoDup year_range -> List.NoDup (units year_range).
Proof.
  intros Hyears. unfold units.
  pose proof NoDup_CONFERENCES as Hconfs.
  induction Hconfs as [|conf confs Hnotin _ IH]; [constructor|].
  cbn [flat_map]. apply List.NoDup_app.
  - apply NoDup_map_NoDup_ForallPairs; [|apply List.NoDup_filter, Hyears].
    intros y y' _ _ [= ->]. reflexivity.
  - exact IH.
  - intros [c y] Hin Hin'.
    apply in_map_iff in Hin as (y0 & [= <- <-] & _).
    apply in_flat_map in Hin' as (c' & Hc' & Hin').
    apply in_map_iff in Hin' as (y1 & [= -> _] & _).
    contradiction.
Qed.

(** X6. [main] scrapes each conference once for each year of the range
    from [start] to [end_] that is not before the first year of the
    conference, and nothing else. *)
Theorem units_of_range start end_ :
  (forall conf year,
      In (conf, year) (units (range start (end_ + 1))) <->
      In conf CONFERENCES /\ (start <= year <= end_)%Z
      /\ (first_year conf <= year)%Z)
  /\ List.NoDup (units (range start (end_ + 1))).
Proof.
  split.
  - intros conf year. rewrite In_units, In_range. intuition lia.
  - apply NoDup_units, NoDup_range.
Qed.

Section MainMore.

Variable BeautifulSoup : str -> option Doc.
Variable net : nat -> str -> list reply.
Variable list_of_set : list str -> list str.
Variable decimal : N -> option Z.
Variable writable : str -> bool.

(** [main] up to the parsing of the years. *)
Lemma main_years args w :
  (0 <= parallel args)%Z ->
  main BeautifulSoup net list_of_set decimal writable args w =
  match year_bounds decimal (years args) with
  | Returned bounds =>
      and_then new_tqdm
        (fun _ =>
           let! papers :=
             gather (map (fun u => scrape BeautifulSoup net list_of_set
                                          (fst u) (snd u))
                         (units (range (fst bounds) (snd bounds + 1)))) in
           let! df := lift (tabulate papers) in
           to_csv writable df (output args))
        {| shared := {| pbar_total := pbar_total (shared w);
                        pbar_n := pbar_n (shared w);
                        sem_value := Z.to_nat (parallel args) |};
           calls := calls w; written := written w |}
  | Raised e =>
      (Raised e,
       {| shared := {| pbar_total := pbar_total (shared w);
                       pbar_n := pbar_n (shared w);
                       sem_value := Z.to_nat (parallel args) |};
          calls := calls w; written := written w |})
  | Suspended =>
      (Suspended,
       {| shared := {| pbar_total := pbar_total (shared w);
                       pbar_n := pbar_n (shared w);
                       sem_value := Z.to_nat (parallel args) |};
          calls := calls w; written := written w |})
  end.
Proof.
  intros Hparallel. unfold main, and_then at 1 2, new_Semaphore.
  destruct (Z.ltb_spec (parallel args) 0) as [|_]; [lia|].
  unfold lift at 1. destruct (year_bounds decimal (years args)); reflexivity.
Qed.

(** X7. When no conference had begun by the last year of the range (all
    began in 2006 or later), [main] fetches nothing, raises [ValueError]
    at the concatenation of no frames and writes no file. *)
Theorem no_conference_yet args start end_ w :
  (0 <= parallel args)%Z ->
  year_bounds decimal (years args) = Returned (start, end_) ->
  (end_ < 2006)%Z ->
  main BeautifulSoup net list_of_set decimal writable args w =
  (Raised ValueError,
   {| shared := {| pbar_total := 0; pbar_n := 0;
                   sem_value := Z.to_nat (parallel args) |};
      calls := calls w; written := written w |}).
Proof.
  intros Hparallel Hbounds Hearly.
  rewrite main_years, Hbounds by assumption. cbn [fst snd].
  assert (Hunits : units (range start (end_ + 1)) = []).
  { destruct (units (range start (end_ + 1))) as [|[conf year] us] eqn:Hus;
      [reflexivity|].
    assert (Hin : In (conf, year) (units (range start (end_ + 1))))
      by (rewrite Hus; left; reflexivity).
    apply In_units in Hin as (Hconf & Hyear & Hfirst).
    apply In_range in Hyear.
    unfold CONFERENCES in Hconf. cbn in Hconf.
    destruct Hconf as [<-|[<-|[<-|[]]]]; cbn in Hfirst; lia. }
  rewrite Hunits. reflexivity.
Qed.

(** X8. A years argument with a "-" that is not of the form digits, "-",
    digits ends [main] by [AssertionError]; a negative number of parallel
    requests ends it by [ValueError].  In both cases nothing was fetched
    and nothing written. *)
Theorem bad_arguments_rejected args w :
  ((parallel args < 0)%Z ->
   main BeautifulSoup net list_of_set decimal writable args w = (Raised ValueError, w))
  /\ ((0 <= parallel args)%Z ->
      existsb (N.eqb 45) (years args) = true ->
      match_year_range decimal (years args) = None ->
      main BeautifulSoup net list_of_set decimal writable args w =
      (Raised AssertionError,
       {| shared := {| pbar_total := pbar_total (shared w);
                       pbar_n := pbar_n (shared w);
                       sem_value := Z.to_nat (parallel args) |};
          calls := calls w; written := written w |})).
Proof.
  split.
  - intros Hneg. unfold main, and_then, new_Semaphore.
    destruct (Z.ltb_spec (parallel args) 0) as [_|]; [reflexivity|lia].
  - intros Hparallel Hminus Hmatch. rewrite main_years by assumption.
    unfold year_bounds. rewrite Hminus, Hmatch. reflexivity.
Qed.

End MainMore.

Lemma bad_arguments_rejected_witness :
  main soup web some_order ascii_decimal any_path
       {| output := py "papers.csv"; parallel := (-1); years := py "2018" |}
       module_loaded = (Raised ValueError, module_loaded)
  /\ main soup web some_order ascii_decimal any_path
          {| output := py "papers.csv"; parallel := 500; years := py "2008-" |}
          module_loaded =
     (Raised AssertionError,
      {| shared := {| pbar_total := 0; pbar_n := 0; sem_value := 500 |};
         calls := []; written := None |}).
Proof.
  split.
  - apply (proj1 (bad_arguments_rejected soup web some_order ascii_decimal any_path
                    {| output := py "papers.csv"; parallel := (-1);
                       years := py "2018" |} module_loaded)).
    reflexivity.
  - apply (proj2 (bad_arguments_rejected soup web some_order ascii_decimal any_path
                    {| output := py "papers.csv"; parallel := 500;
                       years := py "2008-" |} module_loaded));
      [cbn; lia | reflexivity | reflexivity].
Defined.

Lemma no_conference_yet_witness :
  main soup web some_order ascii_decimal any_path
       {| output := py "papers.csv"; parallel := 500; years := py "1999-2005" |}
       module_loaded =
  (Raised ValueError,
   {| shared := {| pbar_total := 0; pbar_n := 0; sem_value := Z.to_nat 500 |};
      calls := calls module_loaded; written := written module_loaded |}).
Proof.
  apply (no_conference_yet soup web some_order ascii_decimal any_path
           {| output := py "papers.csv"; parallel := 500;
              years := py "1999-2005" |} 1999%Z 2005%Z module_loaded);
    [cbn; lia | vm_compute; reflexivity | lia].
Defined.

(** ** URLs *)

Lemma format_d_injective z z' : format_d z = format_d z' -> z = z'.
Proof. apply (format_d_inj ascii_decimal ascii_decimal_digits). Qed.

Lemma format_d_no_slash z : ~ In 47%N (format_d z).
Proof.
  destruct (format_d_text z) as [Htext _]. rewrite Htext.
  assert (Hdigits : forall d, ~ In 47%N (py (NilEmpty.string_of_uint d))).
  { intros d Hin. pose proof (uint_text_digits d) as Hall.
    rewrite List.Forall_forall in Hall. specialize (Hall _ Hin). discriminate. }
  destruct (Z.to_int z) as [d|d]; [apply Hdigits|].
  intros [Heq|Hin]; [discriminate|]. exact (Hdigits d Hin).
Qed.

Lemma split_at_slash (u u' r r' : str) :
  ~ In 47%N u -> ~ In 47%N u' ->
  u ++ 47%N :: r = u' ++ 47%N :: r' -> u = u' /\ r = r'.
Proof.
  revert u'. induction u as [|c u IH]; intros [|c' u'] Hu Hu' Heq; cbn in *.
  - injection Heq as <-. split; reflexivity.
  - injection Heq as <- _. exfalso. apply Hu'. left. reflexivity.
  - injection Heq as -> _. exfalso. apply Hu. left. reflexivity.
  - injection Heq as <- Heq.
    destruct (IH u') as [-> ->]; try assumption; [tauto|tauto|].
    split; reflexivity.
Qed.

Lemma url_tail self year year' (tail tail' : str) :
  py "https://" ++ host self ++ py "/Conferences/" ++ format_d year
    ++ 47%N :: tail =
  py "https://" ++ host self ++ py "/Conferences/" ++ format_d year'
    ++ 47%N :: tail' ->
  year = year' /\ tail = tail'.
Proof.
  intros H. repeat apply app_inv_head in H.
  apply split_at_slash in H as [Hyear Htail]; try apply format_d_no_slash.
  split; [apply format_d_injective|]; assumption.
Qed.

(** X9. The URLs of a conference tell apart what they are for: the URL of
    a paper determines the year and the id of the paper, the URL of an
    author the year and the id of the author, the URL of a listing the
    year, and no URL of one kind is a URL of another kind. *)
Theorem urls_tell_apart self :
  (forall year id year' id',
      paper_url self year id = paper_url self year' id' ->
      year = year' /\ id = id')
  /\ (forall year id year' id',
         author_url self year id = author_url self year' id' ->
         year = year' /\ id = id')
  /\ (forall year year',
         papers_url self year = papers_url self year' -> year = year')
  /\ (forall year id year' id',
         paper_url self year id <> author_url self year' id')
  /\ (forall year year' id,
         papers_url self year <> paper_url self year' id
         /\ papers_url self year <> author_url self year' id).
Proof.
  unfold paper_url, author_url, papers_url.
  change (py "/Schedule?showEvent=") with (47%N :: py "Schedule?showEvent=").
  change (py "/Schedule?showSpeaker=") with (47%N :: py "Schedule?showSpeaker=").
  change (py "/Schedule") with (47%N :: py "Schedule").
  repeat split.
  - apply url_tail in H as [H _]. exact H.
  - apply url_tail in H as [_ H]. apply app_inv_head in H. exact H.
  - apply url_tail in H as [H _]. exact H.
  - apply url_tail in H as [_ H]. apply app_inv_head in H. exact H.
  - intros year year' H. apply url_tail in H as [H _]. exact H.
  - intros year id year' id' H. apply url_tail in H as [_ H]. discriminate H.
  - intros H. apply url_tail in H as [_ H]. discriminate H.
  - intros H. apply url_tail in H as [_ H]. discriminate H.
Qed.

(** ** The table, once more *)

Lemma insert_row_Permutation leb r df :
  Permutation (insert_row leb r df) (r :: df).
Proof.
  induction df as [|r' df IH]; cbn; [reflexivity|].
  destruct (leb r r'); [reflexivity|].
  rewrite IH. apply perm_swap.
Qed.

Lemma sort_values_Permutation leb df : Permutation (sort_values leb df) df.
Proof.
  induction df as [|r df IH]; [reflexivity|].
  change (sort_values leb (r :: df)) with (insert_row leb r (sort_values leb df)).
  rewrite insert_row_Permutation, IH. reflexivity.
Qed.

(** X10. Sorting loses no row and repeats none: the table that is written
    holds the rows of all frames, each as often as the frames hold it, the
    author names apart, which are single-spaced. *)
Theorem no_row_lost p ps :
  exists df,
    tabulate (p :: ps) = Returned df
    /\ Permutation df (replace_spaces (concat (p :: ps)))
    /\ length df = length (concat (p :: ps)).
Proof.
  eexists. split; [reflexivity|].
  assert (Hperm : Permutation
                    (replace_spaces
                       (sort_values by_Year
                          (sort_values by_Conference (concat (p :: ps)))))
                    (replace_spaces (concat (p :: ps)))).
  { unfold replace_spaces. apply Permutation_map.
    rewrite !sort_values_Permutation. reflexivity. }
  split; [exact Hperm|].
  rewrite (Permutation_length Hperm). unfold replace_spaces.
  apply length_map.
Qed.

Lemma sub_spaces_single_spaces s :
  forall in_run,
    single_spaces (sub_spaces in_run s)
    /\ (in_run = true ->
        match sub_spaces in_run s with
        | c :: _ => isspace c = false
        | [] => True
        end).
Proof.
  induction s as [|c s IH]; intros in_run; [cbn; auto|].
  cbn [sub_spaces]. destruct (isspace c) eqn:Hc.
  - destruct (IH true) as [Hsingle Hhead]. destruct in_run.
    + split; [assumption|]. intros _. apply Hhead. reflexivity.
    + split; [|discriminate]. cbn [single_spaces].
      split; [|assumption]. intros _. split; [reflexivity|].
      apply Hhead. reflexivity.
  - destruct (IH false) as [Hsingle _].
    split; [|intros _; assumption].
    cbn [single_spaces]. split; [|assumption].
    rewrite Hc. discriminate.
Qed.

Lemma sub_spaces_fixed s :
  single_spaces s ->
  sub_spaces false s = s
  /\ (match s with
      | c :: _ => isspace c = false
      | [] => True
      end -> sub_spaces true s = s).
Proof.
  induction s as [|c s IH]; intros Hs; [cbn; auto|].
  destruct Hs as [Hc Hs]. destruct (IH Hs) as [IHf IHt].
  cbn [sub_spaces]. destruct (isspace c) eqn:Hspace.
  - destruct (Hc eq_refl) as [-> Hnext]. split.
    + rewrite IHt by assumption. reflexivity.
    + discriminate.
  - rewrite IHf. split; reflexivity.
Qed.

Lemma sub_spaces_keeps_others s :
  forall in_run,
    List.filter (fun c => negb (isspace c)) (sub_spaces in_run s) =
    List.filter (fun c => negb (isspace c)) s.
Proof.
  induction s as [|c s IH]; intros in_run; [reflexivity|].
  cbn [sub_spaces List.filter]. destruct (isspace c) eqn:Hc; cbn [negb].
  - destruct in_run; cbn [List.filter]; rewrite ?IH; [reflexivity|].
    change (isspace 32) with true. cbn [negb]. reflexivity.
  - cbn [List.filter]. rewrite Hc. cbn [negb]. rewrite IH. reflexivity.
Qed.

(** X11. The replacement of whitespace in author names leaves a name in
    which every whitespace is a single space with no whitespace next to
    it, keeps all other characters in their order, changes nothing in a
    name that is already so spaced, and so changes nothing when applied a
    second time. *)
Theorem replace_spaces_normal_form s :
  single_spaces (sub_spaces false s)
  /\ List.filter (fun c => negb (isspace c)) (sub_spaces false s) =
     List.filter (fun c => negb (isspace c)) s
  /\ (single_spaces s -> sub_spaces false s = s)
  /\ sub_spaces false (sub_spaces false s) = sub_spaces false s.
Proof.
  split; [apply sub_spaces_single_spaces|].
  split; [apply sub_spaces_keeps_others|].
  split; [intros Hs; apply sub_spaces_fixed, Hs|].
  apply sub_spaces_fixed, sub_spaces_single_spaces.
Qed.

(** ** What the loaders return *)

Lemma lstrip_head s :
  match lstrip s with
  | c :: _ => isspace c = false
  | [] => True
  end.
Proof.
  induction s as [|c s IH]; [exact I|]. cbn.
  destruct (isspace c) eqn:Hc; [exact IH|exact Hc].
Qed.

Lemma lstrip_suffix s : exists pre, s = pre ++ lstrip s.
Proof.
  induction s as [|c s [pre IH]]; [exists []; reflexivity|]. cbn.
  destruct (isspace c).
  - exists (c :: pre). cbn. f_equal. exact IH.
  - exists []. reflexivity.
Qed.

Lemma strip_no_edge_space s : no_edge_space (strip s).
Proof.
  unfold strip, no_edge_space. rewrite rev_involutive.
  split; [|apply lstrip_head].
  destruct (lstrip_suffix (rev (lstrip s))) as [pre Hpre].
  pose proof (lstrip_head s) as Hhead.
  apply (f_equal (@rev N)) in Hpre.
  rewrite rev_involutive, rev_app_distr in Hpre.
  destruct (rev (lstrip (rev (lstrip s)))) as [|c u]; [exact I|].
  rewrite Hpre in Hhead. exact Hhead.
Qed.

Lemma for_each_Forall {A B} (f : A -> outcome B) (Q : B -> Prop) l ys :
  (forall x y, In x l -> f x = Returned y -> Q y) ->
  for_each f l = Returned ys -> Forall Q ys.
Proof.
  revert ys. induction l as [|x l IH]; intros ys HQ Hfe; cbn in Hfe.
  - injection Hfe as <-. constructor.
  - destruct (f x) as [y|e|] eqn:Hfx; cbn in Hfe; try discriminate.
    destruct (for_each f l) as [ys'|e|]; cbn in Hfe; try discriminate.
    injection Hfe as <-. constructor.
    + eapply HQ; [left; reflexivity|exact Hfx].
    + apply IH; [|reflexivity]. intros x' y' Hin. apply HQ. right. assumption.
Qed.

Section LoaderProperties.

Variable BeautifulSoup : str -> option Doc.
Variable net : nat -> str -> list reply.

(** X12. The title and the display names that [load_paper] returns, and
    the name and the affiliation that [load_author] returns, neither
    start nor end with whitespace. *)
Theorem loaders_strip :
  (forall url w title authors w',
      load_paper BeautifulSoup net url w = (Returned (title, authors), w') ->
      no_edge_space title /\ Forall (fun a => no_edge_space (fst a)) authors)
  /\ (forall url w name affiliation w',
         load_author BeautifulSoup net url w =
           (Returned (name, affiliation), w') ->
         no_edge_space name /\ no_edge_space affiliation).
Proof.
  split.
  - intros url w title authors w' H. unfold load_paper, and_then in H.
    destruct (await_load_doc_from_url _ _ _ w) as [[doc|e|] w1];
      cbn beta iota in H; try discriminate H.
    unfold lift in H. injection H as H _.
    destruct doc as [doc|]; cbn [not_None and_then_pure] in H;
      try discriminate H.
    destruct (select_maincard_0_parent doc) as [box|];
      unfold option_list in H;
      cbn [option_rect first and_then_pure] in H; try discriminate H.
    destruct (select_maincardBody box) as [|body bodies];
      cbn [first and_then_pure] in H; try discriminate H.
    destruct (for_each _ (findAll_button box)) as [found|e|] eqn:Hfound;
      cbn [and_then_pure] in H; try discriminate H.
    injection H as <- <-. split; [apply strip_no_edge_space|].
    eapply for_each_Forall; [|exact Hfound].
    intros b a _ Ha. cbn beta in Ha.
    destruct (subscript (attrs b) (py "onclick"));
      cbn [and_then_pure] in Ha; try discriminate Ha.
    injection Ha as <-. cbn [fst]. apply strip_no_edge_space.
  - intros url w name affiliation w' H. unfold load_author, and_then in H.
    destruct (await_load_doc_from_url _ _ _ w) as [[doc|e|] w1];
      cbn beta iota in H; try discriminate H.
    unfold lift in H. injection H as H _.
    destruct doc as [doc|]; cbn [not_None and_then_pure] in H;
      try discriminate H.
    destruct (select_maincard_0_parent doc) as [box|];
      unfold option_list in H;
      cbn [option_rect first and_then_pure] in H; try discriminate H.
    destruct (find_h3 box) as [h3|]; cbn [not_None and_then_pure] in H;
      try discriminate H.
    destruct (find_h4 box) as [h4|]; cbn [not_None and_then_pure] in H;
      try discriminate H.
    injection H as <- <-. split; apply strip_no_edge_space.
Qed.

End LoaderProperties.

Lemma loaders_strip_witness :
  no_edge_space (py "A Paper")
  /\ Forall (fun a : str * str => no_edge_space (fst a))
            [(py "J Smith", py "1"); (py "J Smith", py "2")].
Proof.
  apply (proj1 (loaders_strip soup web) (paper_url ICLR 2018 (py "77")) ready
           (py "A Paper") [(py "J Smith", py "1"); (py "J Smith", py "2")]
           (snd (load_paper soup web (paper_url ICLR 2018 (py "77")) ready))).
  vm_compute. reflexivity.
Defined.

(** ** Conference.scrape, once more *)

Lemma gather_length {A} (tasks : list (Async A)) :
  forall w results w',
    gather tasks w = (Returned results, w') -> length results = length tasks.
Proof.
  induction tasks as [|t tasks IH]; intros w results w' H; cbn in H.
  - injection H as <- _. reflexivity.
  - destruct (t w) as [o w1]. destruct (gather tasks w1) as [os w2] eqn:Hrest.
    injection H as H _.
    destruct o as [a|e|], os as [l|e'|]; cbn in H; try discriminate H.
    injection H as <-. cbn. f_equal. eapply IH. exact Hrest.
Qed.

Lemma for_each_ext {A B} (f g : A -> outcome B) l :
  (forall x, In x l -> f x = g x) -> for_each f l = for_each g l.
Proof.
  induction l as [|x l IH]; intros Hfg; [reflexivity|]. cbn.
  rewrite (Hfg x (or_introl eq_refl)), IH; [reflexivity|].
  intros y Hy. apply Hfg. right. assumption.
Qed.

Lemma dict_lookup_NoDup l k v :
  List.NoDup (map fst l) -> In (k, v) l -> dict l !! k = Some v.
Proof.
  induction l as [|[k' v'] l IH] using rev_ind; intros Hnodup Hin;
    [contradiction|].
  rewrite dict_snoc. rewrite map_app in Hnodup. cbn in Hnodup.
  apply in_app_or in Hin as [Hin|[[= -> ->]|[]]].
  - rewrite lookup_insert_ne.
    + apply IH; [|assumption]. eapply NoDup_app_remove_r, Hnodup.
    + intros ->. apply NoDup_remove_2 in Hnodup. apply Hnodup.
      rewrite app_nil_r. change k with (fst (k, v)). apply in_map, Hin.
  - apply lookup_insert_eq.
Qed.

(** X13. When no two fetched author pages show the same name and the
    page fetched for each referenced id shows the display name of the
    reference, the join by name is the join by id: every reference gets
    the record fetched for its id. *)
Theorem join_by_name_is_join_by_id author_ids author_data paper_data :
  length author_ids = length author_data ->
  List.NoDup author_ids ->
  List.NoDup (map fst author_data) ->
  (forall title authors name id,
      In (title, authors) paper_data ->
      In (name, id) authors ->
      exists affiliation,
        In (id, (name, affiliation)) (zip author_ids author_data)) ->
  join (dict author_data) paper_data =
  join_by_id author_ids author_data paper_data.
Proof.
  intros Hlen Hids Hnames Hrefs. unfold join, join_by_id.
  apply for_each_ext. intros [title authors] Hpaper. cbn [fst snd].
  rewrite (for_each_ext _
             (fun a => match (list_to_map (zip author_ids author_data)
                               : gmap (list N) (str * str)) !! snd a with
                       | Some record => Returned record
                       | None => Raised (KeyError (snd a))
                       end) authors); [reflexivity|].
  intros [name id] Hauthor. cbn [fst snd].
  destruct (Hrefs title authors name id Hpaper Hauthor) as [aff Hin].
  apply list_elem_of_In in Hin.
  rewrite (elem_of_list_to_map_1 _ id (name, aff)); [| |assumption].
  - unfold subscript. rewrite (dict_lookup_NoDup author_data name aff);
      [reflexivity|assumption|].
    apply list_elem_of_In. eapply elem_of_zip_r, Hin.
  - rewrite fst_zip by lia. apply NoDup_ListNoDup. assumption.
Qed.

Section ScrapeMore.

Variable BeautifulSoup : str -> option Doc.
Variable net : nat -> str -> list reply.
Variable list_of_set : list str -> list str.

Hypothesis list_of_set_In :
  forall ids id, In id (list_of_set ids) <-> In id ids.

Lemma list_of_set_nil : list_of_set [] = [].
Proof.
  destruct (list_of_set []) as [|id ids] eqn:H; [reflexivity|].
  exfalso. apply (list_of_set_In [] id). rewrite H. left. reflexivity.
Qed.

(** X14. A listing without papers is no error: [scrape] returns a frame
    without rows and has made the call for the listing and no other. *)
Theorem empty_listing self year w w0 :
  load_paper_ids BeautifulSoup net (papers_url self year) w =
    (Returned [], w0) ->
  scrape BeautifulSoup net list_of_set self year w = (Returned [], w0)
  /\ calls w0 = calls w ++ [load_paper_ids_call (papers_url self year)].
Proof.
  intros Hlisting. split.
  - unfold scrape, scrape_papers, and_then. rewrite Hlisting.
    cbn [map gather]. unfold scrape_authors, author_ids_of.
    cbn [flat_map]. rewrite list_of_set_nil. reflexivity.
  - pose proof (load_paper_ids_calls BeautifulSoup net (papers_url self year) w)
      as Hcalls.
    rewrite Hlisting in Hcalls. exact Hcalls.
Qed.

(** X15. After the listing, [scrape] calls [load_paper] once for each
    listed id, in the order of the listing and as often as the id is
    listed, whether or not these calls succeed; when they all succeed
    there is one paper for each listed id. *)
Theorem papers_requested_as_listed self year w paper_ids w0 :
  load_paper_ids BeautifulSoup net (papers_url self year) w =
    (Returned paper_ids, w0) ->
  calls (snd (scrape_papers BeautifulSoup net self year w)) =
    calls w ++ load_paper_ids_call (papers_url self year)
          :: map (fun id => load_paper_call (paper_url self year id)) paper_ids
  /\ forall paper_data w1,
       scrape_papers BeautifulSoup net self year w = (Returned paper_data, w1) ->
       length paper_data = length paper_ids.
Proof.
  intros Hlisting.
  pose proof (load_paper_ids_calls BeautifulSoup net (papers_url self year) w)
    as Hcalls.
  rewrite Hlisting in Hcalls. cbn [snd] in Hcalls.
  unfold scrape_papers, and_then. rewrite Hlisting. split.
  - rewrite (gather_calls (load_paper BeautifulSoup net) load_paper_call)
      by apply load_paper_calls.
    rewrite Hcalls, <- app_assoc, map_map. reflexivity.
  - intros paper_data w1 Hgather. apply gather_length in Hgather.
    rewrite Hgather, !length_map. reflexivity.
Qed.

(** X16. When the fetch of the papers does not return, because the
    listing or a paper cannot be fetched, [scrape] does not return a frame
    either; it makes no call after those for the papers, and none of
    [load_author]. *)
Theorem failed_papers_end_the_unit self year w :
  (forall paper_data,
      fst (scrape_papers BeautifulSoup net self year w) <>
      Returned paper_data) ->
  (forall df,
      fst (scrape BeautifulSoup net list_of_set self year w) <> Returned df)
  /\ calls (snd (scrape BeautifulSoup net list_of_set self year w)) =
     calls (snd (scrape_papers BeautifulSoup net self year w))
  /\ exists issued,
       calls (snd (scrape BeautifulSoup net list_of_set self year w)) =
         calls w ++ issued
       /\ forall url, author_fetches url issued = 0%nat.
Proof.
  intros Hfailed.
  assert (Hsame : scrape BeautifulSoup net list_of_set self year w =
                  (match fst (scrape_papers BeautifulSoup net self year w) with
                   | Raised e => Raised e
                   | _ => Suspended
                   end,
                   snd (scrape_papers BeautifulSoup net self year w))).
  { unfold scrape, and_then.
    destruct (scrape_papers BeautifulSoup net self year w) as [[pd|e|] w']
      eqn:Hpapers; cbn [fst snd] in *; [|reflexivity..].
    exfalso. apply (Hfailed pd). reflexivity. }
  rewrite Hsame. cbn [fst snd]. split; [|split].
  - intros df.
    destruct (fst (scrape_papers BeautifulSoup net self year w));
      discriminate.
  - reflexivity.
  - destruct (scrape_papers_calls BeautifulSoup net self year w)
      as (cs & Hcs & Hkinds).
    exists cs. split; [exact Hcs|].
    intros url. apply author_fetches_other, Hkinds.
Qed.

End ScrapeMore.

Lemma join_by_name_is_join_by_id_witness :
  join (dict [smith_1; jones_2]) named_papers =
  join_by_id [py "1"; py "2"] [smith_1; jones_2] named_papers.
Proof.
  apply (join_by_name_is_join_by_id [py "1"; py "2"] [smith_1; jones_2]
           named_papers).
  - reflexivity.
  - apply NoDup_ListNoDup, (bool_decide_unpack _). vm_compute. exact I.
  - apply NoDup_ListNoDup, (bool_decide_unpack _). vm_compute. exact I.
  - intros title authors name id Hpaper Hauthor.
    destruct Hpaper as [[= <- <-]|[[= <- <-]|[]]].
    + destruct Hauthor as [[= <- <-]|[[= <- <-]|[]]].
      * exists (py "MIT"). left. reflexivity.
      * exists (py "CMU"). right. left. reflexivity.
    + destruct Hauthor as [[= <- <-]|[]].
      exists (py "MIT"). left. reflexivity.
Defined.

Lemma empty_listing_witness :
  scrape empty_soup any_web some_order ICLR 2018 ready =
    (Returned [],
     snd (load_paper_ids empty_soup any_web (papers_url ICLR 2018) ready))
  /\ calls (snd (load_paper_ids empty_soup any_web (papers_url ICLR 2018)
                   ready)) =
       calls ready ++ [load_paper_ids_call (papers_url ICLR 2018)].
Proof.
  apply (empty_listing empty_soup any_web some_order some_order_In ICLR 2018
           ready).
  vm_compute. reflexivity.
Defined.

Lemma papers_requested_as_listed_witness :
  calls (snd (scrape_papers soup web ICLR 2018 ready)) =
    calls ready ++ load_paper_ids_call (papers_url ICLR 2018)
          :: map (fun id => load_paper_call (paper_url ICLR 2018 id))
                 [py "77"; py "78"]
  /\ length two_papers = length [py "77"; py "78"].
Proof.
  destruct (papers_requested_as_listed soup web ICLR 2018 ready
              [py "77"; py "78"]
              (snd (load_paper_ids soup web (papers_url ICLR 2018) ready)))
    as [Hcalls Hlength]; [vm_compute; reflexivity|].
  split; [exact Hcalls|].
  apply (Hlength two_papers (snd (scrape_papers soup web ICLR 2018 ready))).
  vm_compute. reflexivity.
Defined.

Lemma failed_papers_end_the_unit_witness :
  (forall df, fst (scrape soup dead_web some_order ICLR 2018 ready) <>
              Returned df)
  /\ calls (snd (scrape soup dead_web some_order ICLR 2018 ready)) =
     calls (snd (scrape_papers soup dead_web ICLR 2018 ready))
  /\ exists issued,
       calls (snd (scrape soup dead_web some_order ICLR 2018 ready)) =
         calls ready ++ issued
       /\ forall url, author_fetches url issued = 0%nat.
Proof.
  apply (failed_papers_end_the_unit soup dead_web some_order ICLR 2018 ready).
  intros paper_data. vm_compute. discriminate.
Defined.

(** ** What a fetch returns *)

Lemma along_run {A} I Q (c : Coro A) :
  forall h rs g o t rest g',
    along I Q c h -> run c rs g = (o, t, rest, g') ->
    o = Suspended \/ Q o (h ++ t).
Proof.
  induction c as [a|e|a k IH|r k IH]; intros h rs g o t rest g' Halong Hrun;
    cbn in Halong, Hrun.
  - injection Hrun as <- <- _ _. right. rewrite app_nil_r. apply Halong.
  - injection Hrun as <- <- _ _. right. rewrite app_nil_r. apply Halong.
  - destruct (perform a g) as [g1|]; [|injection Hrun as <- _ _ _; left; reflexivity].
    destruct (run k rs g1) as [[[o1 t1] rest1] g2] eqn:Hk.
    injection Hrun as <- <- _ _.
    destruct (IH (h ++ [EvDo a]) rs g1 o1 t1 rest1 g2 (proj2 Halong) Hk)
      as [Hs|HQ]; [left; exact Hs|right].
    rewrite <- app_assoc in HQ. exact HQ.
  - destruct rs as [|ans rs]; [injection Hrun as <- _ _ _; left; reflexivity|].
    destruct (run (k ans) rs g) as [[[o1 t1] rest1] g2] eqn:Hk.
    injection Hrun as <- <- _ _.
    destruct (IH ans (h ++ [EvAwait r ans]) rs g o1 t1 rest1 g2
                (proj2 Halong ans) Hk) as [Hs|HQ]; [left; exact Hs|right].
    rewrite <- app_assoc in HQ. exact HQ.
Qed.

Section ParseProperties.

Variable BeautifulSoup : str -> option Doc.

Ltac amble :=
  repeat (cbn;
          match goal with
          | |- exists body, _ => eexists; split; [reflexivity|eassumption]
          | |- _ /\ _ => split
          | |- forall ans : reply, _ => intros [?|?]
          | |- context [is_ClientConnectionError ?e] =>
              destruct (is_ClientConnectionError e)
          | |- context [BeautifulSoup ?b] => destruct (BeautifulSoup b) eqn:?
          | |- True => exact I
          end).

Lemma load_doc_from_url_parsed_last url :
  along (fun _ => True) (parsed_last BeautifulSoup)
        (load_doc_from_url BeautifulSoup url) [].
Proof.
  unfold load_doc_from_url, retry_on_server_disconnect,
    load_doc_from_url_undecorated, async_with_OPEN_REQUESTS, parse,
    parsed_last, last_answer.
  amble.
Qed.

(** X17. The decorated [load_doc_from_url] never returns [None]: what it
    returns is a document, the one parsed from the body that the network
    gave last, that is, in the attempt that succeeded. *)
Theorem fetch_returns_last_parse url rs g doc t rest g' :
  run (load_doc_from_url BeautifulSoup url) rs g = (Returned doc, t, rest, g') ->
  exists d body,
    doc = Some d
    /\ last_answer t = Some (Gives body)
    /\ BeautifulSoup body = Some d.
Proof.
  intros Hrun.
  destruct (along_run _ _ _ [] rs g _ t rest g'
              (load_doc_from_url_parsed_last url) Hrun) as [Hs|HQ];
    [discriminate Hs|].
  cbn [app parsed_last] in HQ. destruct doc as [d|]; [|contradiction].
  destruct HQ as (body & Hlast & Hparse). exists d, body. auto.
Qed.

End ParseProperties.

Lemma fetch_returns_last_parse_witness :
  exists d body,
    Some listing_page = Some d
    /\ last_answer
         (attempt_trace soup (py "u") [Gives []; Fails reset]
            ++ attempt_trace soup (py "u") [Gives []; Gives (py "L")]) =
       Some (Gives body)
    /\ soup body = Some d.
Proof.
  apply (fetch_returns_last_parse soup (py "u")
           ([Gives []; Fails reset] ++ [Gives []; Gives (py "L")]) gate_open
           (Some listing_page) _ [] (advanced gate_open 2 1)).
  vm_compute. reflexivity.
Defined.

(** ** From the markup to the ids and names *)

Lemma lstrip_fixed s :
  match s with
  | c :: _ => isspace c = false
  | [] => True
  end -> lstrip s = s.
Proof. destruct s as [|c s]; [reflexivity|]. cbn. intros ->. reflexivity. Qed.

Lemma strip_fixed s : no_edge_space s -> strip s = s.
Proof.
  intros [Hhead Hlast]. unfold strip.
  rewrite (lstrip_fixed s Hhead), (lstrip_fixed (rev s) Hlast).
  apply rev_involutive.
Qed.

Lemma button_label n :
  no_edge_space n -> strip (slice_to_neg 2 (strip (n ++ [32%N; 187%N]))) = n.
Proof.
  intros Hn. destruct n as [|c n]; [reflexivity|].
  rewrite (strip_fixed ((c :: n) ++ [32%N; 187%N])).
  - unfold slice_to_neg.
    replace (length ((c :: n) ++ [32%N; 187%N]) - 2) with (length (c :: n))
      by (rewrite length_app; cbn; lia).
    rewrite take_app_length. apply strip_fixed, Hn.
  - split; [exact (proj1 Hn)|]. rewrite rev_app_distr. reflexivity.
Qed.

Lemma handler_id id : slice 13 3 (py "showSpeaker('" ++ id ++ py "');") = id.
Proof.
  unfold slice.
  replace (length (py "showSpeaker('" ++ id ++ py "');") - 3)
    with (length (py "showSpeaker('" ++ id))
    by (rewrite !length_app; cbn; lia).
  rewrite app_assoc, take_app_length. reflexivity.
Qed.

Lemma for_each_Forall2 {A B} (f : A -> outcome B) l ys :
  Forall2 (fun x y => f x = Returned y) l ys -> for_each f l = Returned ys.
Proof.
  induction 1 as [|x y l ys Hx _ IH]; [reflexivity|].
  cbn. rewrite Hx, IH. reflexivity.
Qed.

Lemma for_each_Exists {A B} (f : A -> outcome B) e l :
  (forall x, (exists y, f x = Returned y) \/ f x = Raised e) ->
  Exists (fun x => f x = Raised e) l -> for_each f l = Raised e.
Proof.
  intros Hf. induction 1 as [x l Hx|x l _ IH]; cbn.
  - rewrite Hx. reflexivity.
  - destruct (Hf x) as [[y ->]| ->]; [|reflexivity].
    cbn. rewrite IH. reflexivity.
Qed.

Section MarkupProperties.

Variable BeautifulSoup : str -> option Doc.
Variable net : nat -> str -> list reply.

(** X18. The ids of a listing are read off its cards: when every card
    has the id of a paper after "maincard_", [load_paper_ids] returns
    these ids in the order of the cards; a card without an [id]
    attribute makes it raise [KeyError]. *)
Theorem paper_ids_from_cards url w doc w' :
  await_load_doc_from_url BeautifulSoup net (load_paper_ids_call url) w =
    (Returned (Some doc), w') ->
  (forall ids,
      Forall2 card_of (select_maincard_Poster doc) ids ->
      load_paper_ids BeautifulSoup net url w = (Returned ids, w'))
  /\ (Exists (fun c => attrs c !! py "id" = None) (select_maincard_Poster doc) ->
      load_paper_ids BeautifulSoup net url w = (Raised (KeyError (py "id")), w')).
Proof.
  intros Hfetch. unfold load_paper_ids, and_then. rewrite Hfetch.
  unfold lift. cbn [not_None and_then_pure]. split.
  - intros ids Hcards. f_equal. apply for_each_Forall2.
    eapply Forall2_impl; [exact Hcards|].
    intros c id Hc. unfold card_of in Hc. unfold subscript. rewrite Hc.
    reflexivity.
  - intros Hbare. f_equal. apply for_each_Exists.
    + intros c. unfold subscript.
      destruct (attrs c !! py "id") as [v|]; [left; eexists|right]; reflexivity.
    + eapply Exists_impl; [exact Hbare|].
      intros c Hc. unfold subscript. rewrite Hc. reflexivity.
Qed.

(** X19. The authors of a paper are read off its buttons: when each
    button is labelled with a name, a space and a closing mark and its
    handler is showSpeaker of an id, [load_paper] returns the stripped
    title and these names and ids in the order of the buttons; a button
    without a handler makes it raise [KeyError]. *)
Theorem authors_from_buttons url w doc w' box body more :
  await_load_doc_from_url BeautifulSoup net (load_paper_call url) w =
    (Returned (Some doc), w') ->
  select_maincard_0_parent doc = Some box ->
  select_maincardBody box = body :: more ->
  (forall authors,
      Forall2 button_of (findAll_button box) authors ->
      Forall (fun a => no_edge_space (fst a)) authors ->
      load_paper BeautifulSoup net url w =
        (Returned (strip (text body), authors), w'))
  /\ (Exists (fun b => attrs b !! py "onclick" = None) (findAll_button box) ->
      load_paper BeautifulSoup net url w =
        (Raised (KeyError (py "onclick")), w')).
Proof.
  intros Hfetch Hbox Hbody. unfold load_paper, and_then. rewrite Hfetch.
  unfold lift. cbn [not_None and_then_pure]. rewrite Hbox.
  unfold option_list. cbn [option_rect first and_then_pure]. rewrite Hbody.
  cbn [first and_then_pure]. split.
  - intros authors Hbuttons Hnames. f_equal.
    rewrite (for_each_Forall2 _ (findAll_button box) authors); [reflexivity|].
    clear Hbox Hbody. induction Hbuttons as [|b [n id] bs authors Hb _ IH];
      constructor.
    + destruct Hb as [Htext Hclick]. cbn [fst snd] in Htext, Hclick.
      unfold subscript. rewrite Hclick, Htext. cbn [and_then_pure].
      rewrite handler_id, button_label; [reflexivity|].
      apply (Forall_inv Hnames).
    + apply IH. apply (Forall_inv_tail Hnames).
  - intros Hbare. f_equal.
    rewrite (for_each_Exists _ (KeyError (py "onclick")) (findAll_button box));
      [reflexivity| |].
    + intros b. unfold subscript.
      destruct (attrs b !! py "onclick") as [v|]; [left; eexists|right];
        reflexivity.
    + eapply Exists_impl; [exact Hbare|].
      intros b Hb. unfold subscript. rewrite Hb. reflexivity.
Qed.

End MarkupProperties.

Lemma paper_ids_from_cards_witness :
  load_paper_ids soup web (papers_url ICLR 2018) ready =
  (Returned [py "77"; py "78"],
   snd (await_load_doc_from_url soup web
          (load_paper_ids_call (papers_url ICLR 2018)) ready)).
Proof.
  apply (proj1 (paper_ids_from_cards soup web (papers_url ICLR 2018) ready
                  listing_page _ ltac:(vm_compute; reflexivity))).
  repeat constructor; vm_compute; reflexivity.
Defined.

Lemma authors_from_buttons_witness :
  load_paper soup web (paper_url ICLR 2018 (py "77")) ready =
  (Returned (strip (text (tag (py " A Paper ") [])),
             [(py "J Smith", py "1"); (py "J Smith", py "2")]),
   snd (await_load_doc_from_url soup web
          (load_paper_call (paper_url ICLR 2018 (py "77"))) ready)).
Proof.
  apply (proj1 (authors_from_buttons soup web (paper_url ICLR 2018 (py "77"))
                  ready
                  (paper_page " A Paper "
                     [button "J Smith" "1"; button "J Smith" "2"])
                  _ _ (tag (py " A Paper ") []) []
                  ltac:(vm_compute; reflexivity) eq_refl eq_refl)).
  - repeat constructor; vm_compute; reflexivity.
  - repeat constructor; vm_compute; reflexivity.
Defined.

(** ** A semaphore without permits *)

Section NoPermit.

Variable BeautifulSoup : str -> option Doc.
Variable net : nat -> str -> list reply.
Variable list_of_set : list str -> list str.
Variable decimal : N -> option Z.
Variable writable : str -> bool.

(** A fetch that finds no permit has counted its request and waits. *)
Lemma fetch_without_permit url rs g :
  sem_value g = 0%nat ->
  run (load_doc_from_url BeautifulSoup url) rs g =
  (Suspended, [EvDo IncTotal], rs,
   {| pbar_total := pbar_total g + 1; pbar_n := pbar_n g;
      sem_value := sem_value g |}).
Proof.
  intros Hnone. unfold load_doc_from_url, retry_on_server_disconnect,
    load_doc_from_url_undecorated, async_with_OPEN_REQUESTS.
  cbn. rewrite Hnone. reflexivity.
Qed.

Lemma scrape_without_permit self year w :
  sem_value (shared w) = 0%nat ->
  scrape BeautifulSoup net list_of_set self year w =
  (Suspended,
   {| shared := {| pbar_total := pbar_total (shared w) + 1;
                   pbar_n := pbar_n (shared w); sem_value := 0 |};
      calls := calls w ++ [load_paper_ids_call (papers_url self year)];
      written := written w |}).
Proof.
  intros Hnone.
  unfold scrape, scrape_papers, load_paper_ids, and_then,
    await_load_doc_from_url.
  rewrite fetch_without_permit by assumption. rewrite Hnone. reflexivity.
Qed.

Lemma gather_without_permit us :
  forall w,
    sem_value (shared w) = 0%nat ->
    gather (map (fun u => scrape BeautifulSoup net list_of_set (fst u) (snd u))
                us) w =
    (match us with
     | [] => Returned []
     | _ :: _ => Suspended
     end,
     {| shared := {| pbar_total := pbar_total (shared w) + length us;
                     pbar_n := pbar_n (shared w); sem_value := 0 |};
        calls := calls w
                   ++ map (fun u => load_paper_ids_call
                                      (papers_url (fst u) (snd u))) us;
        written := written w |}).
Proof.
  induction us as [|u us IH]; intros w Hnone.
  - destruct w as [[t n s] cs wr]. cbn in *. subst s.
    rewrite Nat.add_0_r, app_nil_r. reflexivity.
  - cbn [map gather length]. rewrite scrape_without_permit by assumption.
    rewrite IH by reflexivity. cbn [shared calls written pbar_total pbar_n].
    rewrite <- app_assoc. cbn [app].
    replace (pbar_total (shared w) + 1 + length us)
      with (pbar_total (shared w) + S (length us)) by lia.
    destruct us; reflexivity.
Qed.

(** X20. With [--parallel 0] the semaphore has no permit to give: every
    unit counts its first request and waits for a permit, so [main]
    never gets past the gathering of the units; nothing is fetched to
    the end and no file is written. *)
Theorem no_permit_no_table args start end_ w :
  parallel args = 0%Z ->
  year_bounds decimal (years args) = Returned (start, end_) ->
  units (range start (end_ + 1)) <> [] ->
  main BeautifulSoup net list_of_set decimal writable args w =
  (Suspended,
   {| shared := {| pbar_total := length (units (range start (end_ + 1)));
                   pbar_n := 0; sem_value := 0 |};
      calls := calls w
                 ++ map (fun u => load_paper_ids_call
                                    (papers_url (fst u) (snd u)))
                        (units (range start (end_ + 1)));
      written := written w |}).
Proof.
  intros Hparallel Hbounds Hunits.
  rewrite main_years, Hbounds by lia. cbn [fst snd].
  unfold and_then at 1, new_tqdm. unfold and_then at 1.
  rewrite gather_without_permit by (cbn; rewrite Hparallel; reflexivity).
  cbn [shared calls written pbar_total pbar_n].
  destruct (units (range start (end_ + 1))); [contradiction|reflexivity].
Qed.

End NoPermit.

Lemma no_permit_no_table_witness :
  main soup web some_order ascii_decimal any_path
       {| output := py "papers.csv"; parallel := 0; years := py "2018" |}
       module_loaded =
  (Suspended,
   {| shared := {| pbar_total := length (units (range 2018 (2018 + 1)));
                   pbar_n := 0; sem_value := 0 |};
      calls := calls module_loaded
                 ++ map (fun u => load_paper_ids_call
                                    (papers_url (fst u) (snd u)))
                        (units (range 2018 (2018 + 1)));
      written := written module_loaded |}).
Proof.
  apply (no_permit_no_table soup web some_order ascii_decimal any_path
           {| output := py "papers.csv"; parallel := 0; years := py "2018" |}
           2018%Z 2018%Z module_loaded);
    [reflexivity | vm_compute; reflexivity | vm_compute; discriminate].
Defined.

(** * The table that main writes *)







Section Units.

Context {U : Type}.
Variable key : U -> str * Z.
Variable P : U -> DataFrame -> Prop.



End Units.



Section WrittenTable.

Variable BeautifulSoup : str -> option Doc.
Variable net : nat -> str -> list reply.
Variable list_of_set : list str -> list str.
Variable decimal : N -> option Z.
Variable writable : str -> bool.


(** [main] from the gathering of the units on. *)
Lemma main_gathered args w start end_ :
  (0 <= parallel args)%Z ->
  year_bounds decimal (years args) = Returned (start, end_) ->
  main BeautifulSoup net list_of_set decimal writable args w =
  and_then
    (gather (map (fun u => scrape BeautifulSoup net list_of_set (fst u) (snd u))
                 (units (range start (end_ + 1)))))
    (fun papers =>
       let! df := lift (tabulate papers) in
       to_csv writable df (output args))
    (set_up args w).
Proof.
  intros Hparallel Hbounds. rewrite main_years, Hbounds by assumption.
  reflexivity.
Qed.

(** When [main] returns, every unit returned a frame and the table made
    of the frames was written. *)
Lemma main_returned args w w' :
  main BeautifulSoup net list_of_set decimal writable args w =
    (Returned tt, w') ->
  exists start end_ papers wg df,
    year_bounds decimal (years args) = Returned (start, end_)
    /\ gather (map (fun u => scrape BeautifulSoup net list_of_set
                                    (fst u) (snd u))
                   (units (range start (end_ + 1))))
              (set_up args w) = (Returned papers, wg)
    /\ tabulate papers = Returned df
    /\ written w' = Some (output args, df).
Proof.
  intros Hmain.
  destruct (Z.ltb_spec (parallel args) 0) as [Hneg|Hparallel].
  { exfalso. unfold main, and_then, new_Semaphore in Hmain.
    destruct (Z.ltb_spec (parallel args) 0); [discriminate Hmain|lia]. }
  destruct (year_bounds decimal (years args)) as [[start end_]|e|] eqn:Hbounds.
  - rewrite (main_gathered args w start end_ Hparallel Hbounds) in Hmain.
    unfold and_then in Hmain.
    destruct (gather _ (set_up args w)) as [[papers|e|] wg] eqn:Hgather;
      try discriminate Hmain.
    unfold lift in Hmain.
    destruct (tabulate papers) as [df|e|] eqn:Htable; try discriminate Hmain.
    unfold to_csv in Hmain.
    destruct (writable (output args)); [|discriminate Hmain].
    injection Hmain as <-.
    exists start, end_, papers, wg, df. repeat split; assumption.
  - rewrite main_years, Hbounds in Hmain by assumption. discriminate Hmain.
  - rewrite main_years, Hbounds in Hmain by assumption. discriminate Hmain.
Qed.


(** C8. When [main] returns, every author name in the file it has written
    is the name of a row that a unit returned, in the order of the sorted
    rows, with each maximal run of whitespace replaced by one space; the
    name "Jane   Doe" is written "Jane Doe". *)
Theorem author_names_single_spaced args w w' :
  main BeautifulSoup net list_of_set decimal writable args w =
    (Returned tt, w') ->
  (exists start end_ papers wg df,
      year_bounds decimal (years args) = Returned (start, end_)
      /\ gather (map (fun u => scrape BeautifulSoup net list_of_set
                                      (fst u) (snd u))
                     (units (range start (end_ + 1))))
                (set_up args w) = (Returned papers, wg)
      /\ written w' = Some (output args, df)
      /\ map row_Author df =
         map (fun r => single_spaced (row_Author r))
             (sort_values by_Year
                (sort_values by_Conference (concat papers))))
  /\ (forall s,
         concat (map snd (runs s)) = s
         /\ alternating (runs s)
         /\ Forall (fun br : bool * str =>
                      snd br <> []
                      /\ Forall (fun c => isspace c = fst br) (snd br))
                   (runs s))
  /\ single_spaced (py "Jane   Doe") = py "Jane Doe".
Proof.
  intros Hmain.
  destruct (main_returned args w w' Hmain)
    as (start & end_ & papers & wg & df & Hbounds & Hgather & Htable & Hfile).
  split; [|split].
  - exists start, end_, papers, wg, df.
    repeat split; try assumption. apply tabulate_authors, Htable.
  - intros s. split; [apply runs_concat|].
    split; [apply runs_alternating | apply runs_of_one_kind].
  - reflexivity.
Qed.


End WrittenTable.


(** On the site whose pages show "Jane   Doe", the file holds "Jane Doe":
    for each of the five units of 2017 and 2018, the authors of paper 77
    and the author of paper 78. *)
Lemma author_names_single_spaced_witness :
  exists df,
    written (snd (main schedule_soup schedule_web some_order ascii_decimal
                    any_path two_years module_loaded)) =
      Some (py "papers.csv", df)
    /\ map row_Author df =
       concat (repeat [py "Jane Doe"; py "B Jones"; py "Jane Doe"] 5).
Proof.
  destruct (author_names_single_spaced schedule_soup schedule_web some_order
              ascii_decimal any_path two_years module_loaded
              (snd (main schedule_soup schedule_web some_order ascii_decimal
                      any_path two_years module_loaded)))
    as [(start & end_ & papers & wg & df & Hbounds & Hgather & Hfile & Hnames)
          _]; [vm_compute; reflexivity|].
  exists df. split; [exact Hfile|]. rewrite Hnames.
  vm_compute in Hbounds. injection Hbounds as <- <-.
  vm_compute in Hgather. injection Hgather as <- _.
  vm_compute. reflexivity.
Defined.

